(** * SEO URL checker: the page extractor, the formatters and the batch flow

    A shallow embedding of [url_checker_app.py].  The script is glue around
    three libraries (requests, BeautifulSoup, urllib.parse) and the Python
    runtime; what those return is taken as given (records [Libs] and the
    network function [Net]) and the script's own control flow, its
    [try]/[except] handlers and its bookkeeping are modelled line by line.

    Conventions.
    - A Python [str] is the list of its Unicode code points ([str]).
    - A Python [int] is a [Z].
    - An expression that can raise is a value of [Exc]; the body of the
      [try] block runs in the monad [M], which also carries the current
      binding of the local variable [url], because the [except] handlers of
      [get_page_data] read that variable after the body has been left.
    - Only subclasses of [Exception] are modelled: an interrupt of the
      interpreter ([KeyboardInterrupt], [SystemExit]) is not an event of the
      model. *)

From Stdlib Require Import List String Ascii Bool ZArith NArith Lia DecimalString.
Import ListNotations.

Set Implicit Arguments.

Local Open Scope Z_scope.

(** ** Python strings *)

Definition str : Type := list N.

(** An ASCII literal of the source, as a [str]. *)
Definition py (lit : string) : str := map N_of_ascii (list_ascii_of_string lit).

(** The double quote character, for the markup the formatters produce. *)
Definition dq : str := [34%N].

Fixpoint str_eqb (a b : str) : bool :=
  match a, b with
  | [], [] => true
  | x :: a', y :: b' => N.eqb x y && str_eqb a' b'
  | _, _ => false
  end.

(** [len(s)] *)
Definition len (s : str) : Z := Z.of_nat (List.length s).

(** [s.startswith(p)] *)
Fixpoint startswith (s p : str) : bool :=
  match p, s with
  | [], _ => true
  | c :: p', d :: s' => N.eqb c d && startswith s' p'
  | _ :: _, [] => false
  end.

(** [s.startswith((p1, p2, ...))] *)
Definition startswith_any (s : str) (ps : list str) : bool :=
  existsb (startswith s) ps.

(** [needle in hay] on strings. *)
Fixpoint contains (hay needle : str) : bool :=
  startswith hay needle ||
  match hay with
  | [] => false
  | _ :: hay' => contains hay' needle
  end.

(** [x in xs] on a list of strings. *)
Definition str_in (x : str) (xs : list str) : bool := existsb (str_eqb x) xs.

(** The characters [str.strip()] removes: the code points for which
    [str.isspace] holds. *)
Definition isspace (c : N) : bool :=
  ((9 <=? c) && (c <=? 13) || (28 <=? c) && (c <=? 32) ||
   (c =? 133) || (c =? 160) || (c =? 5760) ||
   (8192 <=? c) && (c <=? 8202) || (c =? 8232) || (c =? 8233) ||
   (c =? 8239) || (c =? 8287) || (c =? 12288))%N.

(** [s.lstrip()] *)
Fixpoint lstrip_by (f : N -> bool) (s : str) : str :=
  match s with
  | [] => []
  | c :: s' => if f c then lstrip_by f s' else s
  end.

(** [s.rstrip()], dropping the trailing characters that satisfy [f]. *)
Definition rstrip_by (f : N -> bool) (s : str) : str :=
  rev (lstrip_by f (rev s)).

(** [s.strip()] *)
Definition strip (s : str) : str := rstrip_by isspace (lstrip_by isspace s).

(** [s.rstrip('/')] *)
Definition rstrip_slash (s : str) : str := rstrip_by (N.eqb 47) s.

(** [str(n)] for an integer. *)
Definition str_of_int (n : Z) : str := py (NilZero.string_of_int (Z.to_int n)).

(** [s[:n]] for a non-negative [n]. *)
Definition slice_to (n : nat) (s : str) : str := firstn n s.

(** ** Python values and exceptions *)

(** The values [get_page_data] can be called with.  The batch flow passes
    whatever pandas read from the cell, so besides [str] there are objects
    of other types (an [int] or a [float] of a numeric column); of those the
    script only uses that they have no [startswith] method. *)
Inductive pyval : Type :=
| PyStr (s : str)
| PyObj (type_name : str) (repr : str).

(** The two classes the handlers of [get_page_data] tell apart; [msg] is
    [str(e)]. *)
Inductive exn : Type :=
| RequestException (msg : str)
| OtherException (msg : str).

Definition str_of_exn (e : exn) : str :=
  match e with
  | RequestException msg => msg
  | OtherException msg => msg
  end.

Inductive Exc (A : Type) : Type :=
| Ok (a : A)
| Raise (e : exn).

Arguments Ok {A} a.
Arguments Raise {A} e.

(** The message of the [AttributeError] for a missing method. *)
Definition attribute_error (type_name method : str) : exn :=
  OtherException
    (py "'" ++ type_name ++ py "' object has no attribute '" ++ method ++ py "'").

(** ** The monad of the [try] body: exceptions, and the local [url] *)

Definition M (A : Type) : Type := pyval -> Exc A * pyval.

Definition ret {A} (a : A) : M A := fun url => (Ok a, url).

Definition bind {A B} (m : M A) (k : A -> M B) : M B :=
  fun url =>
    match m url with
    | (Ok a, url') => k a url'
    | (Raise e, url') => (Raise e, url')
    end.

Definition raise {A} (e : exn) : M A := fun url => (Raise e, url).

Definition lift {A} (c : Exc A) : M A := fun url => (c, url).

Definition get_url : M pyval := fun url => (Ok url, url).

Definition set_url (v : pyval) : M unit := fun _ => (Ok tt, v).

Declare Scope py_scope.
Delimit Scope py_scope with pym.
Notation "x <- c ;; k" := (bind c (fun x => k))
  (at level 61, c at next level, right associativity) : py_scope.
Notation "' pat <- c ;; k" := (bind c (fun x => match x with pat => k end))
  (at level 61, pat pattern, c at next level, right associativity) : py_scope.
Notation "c ;; k" := (bind c (fun _ => k))
  (at level 61, right associativity) : py_scope.

(** ** The parsed page *)

(** The value BeautifulSoup stores for an attribute: a string, or for a
    multi-valued attribute ([rel], [class], ...) the list of its values. *)
Inductive AttrValue : Type :=
| AStr (s : str)
| AList (l : list str).

Module Tag.
(** An element of the parsed page: its tag name, its attribute dictionary
    (as its items) and the result of its [get_text()]. *)
Record t : Type := mk {
  name : str;
  attrs : list (str * AttrValue);
  get_text : str
}.
End Tag.

(** A soup is used only through [find], so it is given by the elements of
    the page in document order. *)
Definition Soup : Type := list Tag.t.

(** [tag.get(key)]: the stored value, or [None]. *)
Fixpoint tag_get_items (items : list (str * AttrValue)) (key : str) : option AttrValue :=
  match items with
  | [] => None
  | (k, v) :: rest => if str_eqb k key then Some v else tag_get_items rest key
  end.

Definition tag_get (tag : Tag.t) (key : str) : option AttrValue :=
  tag_get_items (Tag.attrs tag) key.

(** [' '.join(l)] *)
Fixpoint join_space (l : list str) : str :=
  match l with
  | [] => []
  | [x] => x
  | x :: rest => x ++ py " " ++ join_space rest
  end.

(** How [find] compares an attribute with the string asked for: a string
    attribute must be equal to it; of a multi-valued attribute one of the
    values, or the values joined by spaces, must be. *)
Definition attr_matches (v : option AttrValue) (wanted : str) : bool :=
  match v with
  | None => false
  | Some (AStr s) => str_eqb s wanted
  | Some (AList l) => existsb (fun x => str_eqb x wanted) l || str_eqb (join_space l) wanted
  end.

Definition tag_matches (tag_name : str) (wanted : list (str * str)) (tag : Tag.t) : bool :=
  str_eqb (Tag.name tag) tag_name &&
  forallb (fun kv => attr_matches (tag_get tag (fst kv)) (snd kv)) wanted.

(** [soup.find(tag_name, wanted)]: the first matching element, or [None]. *)
Definition find (soup : Soup) (tag_name : str) (wanted : list (str * str)) : option Tag.t :=
  List.find (tag_matches tag_name wanted) soup.

(** Truth value of what [tag.get] returned, as [if canonical_url:] tests it. *)
Definition truthy (v : option AttrValue) : bool :=
  match v with
  | None => false
  | Some (AStr []) => false
  | Some (AList []) => false
  | Some _ => true
  end.

(** ** The libraries and the network *)

Module Response.
(** What the script reads of a [requests.Response]. *)
Record t : Type := mk {
  status_code : Z;
  content : list Byte.byte;
  url : str           (* the final URL, after redirects *)
}.
End Response.

(** [requests.get(url, headers=..., timeout=..., allow_redirects=...)]: a
    response, or an exception. *)
Definition Net : Type := str -> list (str * str) -> Z -> bool -> Exc Response.t.

(** The library functions whose results the script consumes. *)
Record Libs : Type := {
  (* BeautifulSoup(content, 'html.parser') *)
  BeautifulSoup : list Byte.byte -> Exc Soup;
  (* urllib.parse.urljoin(base, url); the second argument is whatever
     [tag.get('href')] returned *)
  urljoin : str -> AttrValue -> Exc str;
  (* str.lower() *)
  lower : str -> str
}.

(** ** The result record *)

(** [status_code] is an [int] on success and the string ['Error'] on failure. *)
Inductive StatusCode : Type :=
| SInt (n : Z)
| SStr (s : str).

Record AnalysisResult : Type := {
  url : pyval;
  status_code : StatusCode;
  canonical_url : str;
  is_self_referring : bool;
  noindex_found : bool;
  nofollow_found : bool;
  meta_title : option str;
  title_length : Z;
  meta_description : option str;
  desc_length : Z;
  error : option str
}.

(** ** get_page_data *)

Definition headers : list (str * str) :=
  [(py "User-Agent",
    py "Mozilla/5.0 (Windows NT 10.0; Win64; x64) AppleWebKit/537.36 (KHTML, like Gecko) Chrome/91.0.4472.124 Safari/537.36")].

(** [tag.get('content', '').lower()] of lines 106 and 112. *)
Definition robots_content (L : Libs) (robots_meta : Tag.t) : Exc str :=
  match tag_get robots_meta (py "content") with
  | None => Ok (lower L [])
  | Some (AStr s) => Ok (lower L s)
  | Some (AList _) => Raise (attribute_error (py "list") (py "lower"))
  end.

(** [desc_tag.get('content').strip()] of line 122: [get] has no default
    here, so a tag without the attribute gives [None.strip()]. *)
Definition desc_content (desc_tag : Tag.t) : Exc str :=
  match tag_get desc_tag (py "content") with
  | None => Raise (attribute_error (py "NoneType") (py "strip"))
  | Some (AStr s) => Ok (strip s)
  | Some (AList _) => Raise (attribute_error (py "list") (py "strip"))
  end.

(** [len(x) if x else 0] of lines 118 and 123. *)
Definition len_or_zero (x : option str) : Z :=
  match x with
  | Some (c :: s) => len (c :: s)
  | _ => 0
  end.

(** Lines 75-76: add the protocol if it is missing. *)
Definition add_protocol (s : str) : str :=
  if negb (startswith_any s [py "http://"; py "https://"])
  then py "https://" ++ s else s.

Local Open Scope py_scope.

(** The body of the [try] block, lines 74-137.  A BeautifulSoup tag is
    always true, so [x.get(...) if x else None] only tests for [None]. *)
Definition get_page_data_try (L : Libs) (requests_get : Net) : M AnalysisResult :=
  arg <- get_url ;;
  match arg with
  | PyObj type_name _ => raise (attribute_error type_name (py "startswith"))
  | PyStr s =>
    let url := add_protocol s in
    set_url (PyStr url) ;;
    response <- lift (requests_get url headers 10 true) ;;
    let status_code := Response.status_code response in
    soup <- lift (BeautifulSoup L (Response.content response)) ;;
    (* Get canonical tag *)
    let canonical_tag := find soup (py "link") [(py "rel", py "canonical")] in
    let canonical_url :=
      match canonical_tag with Some tag => tag_get tag (py "href") | None => None end in
    (* Check if canonical is self-referring *)
    '(canonical_url, is_self_referring) <-
      match canonical_url with
      | Some href =>
        if truthy (Some href) then
          joined <- lift (urljoin L url href) ;;
          ret (joined,
               str_eqb (rstrip_slash joined) (rstrip_slash (Response.url response)))
        else ret (py "Not found", false)
      | None => ret (py "Not found", false)
      end ;;
    (* Check for noindex *)
    let robots_meta := find soup (py "meta") [(py "name", py "robots")] in
    noindex_found <-
      match robots_meta with
      | Some tag => content <- lift (robots_content L tag) ;;
                    ret (contains content (py "noindex"))
      | None => ret false
      end ;;
    (* Check for nofollow *)
    nofollow_found <-
      match robots_meta with
      | Some tag => content <- lift (robots_content L tag) ;;
                    ret (contains content (py "nofollow"))
      | None => ret false
      end ;;
    (* Get meta title *)
    let title_tag := find soup (py "title") [] in
    let meta_title :=
      match title_tag with Some tag => Some (strip (Tag.get_text tag)) | None => None end in
    let title_length := len_or_zero meta_title in
    (* Get meta description *)
    let desc_tag := find soup (py "meta") [(py "name", py "description")] in
    meta_description <-
      match desc_tag with
      | Some tag => d <- lift (desc_content tag) ;; ret (Some d)
      | None => ret None
      end ;;
    let desc_length := len_or_zero meta_description in
    ret {| url := PyStr url;
           status_code := SInt status_code;
           canonical_url := canonical_url;
           is_self_referring := is_self_referring;
           noindex_found := noindex_found;
           nofollow_found := nofollow_found;
           meta_title := meta_title;
           title_length := title_length;
           meta_description := meta_description;
           desc_length := desc_length;
           error := None |}
  end.

Local Close Scope py_scope.

(** The record both [except] clauses build (lines 140-152 and 154-166);
    [url] is the binding of the local variable when the body was left. *)
Definition failure_record (url : pyval) (e : exn) : AnalysisResult :=
  {| url := url;
     status_code := SStr (py "Error");
     canonical_url := py "Error";
     is_self_referring := false;
     noindex_found := false;
     nofollow_found := false;
     meta_title := None;
     title_length := 0;
     meta_description := None;
     desc_length := 0;
     error := Some (str_of_exn e) |}.

(** [get_page_data(url)]: the [try] body under its two handlers.  The
    result is an [Exc] so that "does not raise" is a statement, not a
    consequence of the type. *)
Definition get_page_data (L : Libs) (requests_get : Net) (arg : pyval)
  : Exc AnalysisResult :=
  match get_page_data_try L requests_get arg with
  | (Ok result, _) => Ok result
  | (Raise (RequestException msg), url) => Ok (failure_record url (RequestException msg))
  | (Raise (OtherException msg), url) => Ok (failure_record url (OtherException msg))
  end.

(** ** Presentation formatters *)

(** [f'{status_code}'] *)
Definition str_of_status (c : StatusCode) : str :=
  match c with
  | SInt n => str_of_int n
  | SStr s => s
  end.

Definition span (css_class body : str) : str :=
  py "<span class=" ++ dq ++ css_class ++ dq ++ py ">" ++ body ++ py "</span>".

Definition format_status_code (status_code : StatusCode) : str :=
  match status_code with
  | SInt 200 => span (py "status-200") (str_of_status status_code)
  | _ => span (py "status-error") (str_of_status status_code)
  end.

Definition format_canonical_status (is_self_referring : bool) (canonical_url : str) : str :=
  if str_eqb canonical_url (py "Not found") then span (py "tag-bad") (py "Not Found")
  else if is_self_referring then span (py "tag-good") (py "Self-referring")
  else span (py "tag-bad") (py "Non self-referring").

Definition format_noindex_status (noindex_found : bool) : str :=
  if noindex_found then span (py "tag-bad") (py "Present")
  else span (py "tag-good") (py "Not Present").

Definition format_nofollow_status (nofollow_found : bool) : str :=
  if nofollow_found then span (py "tag-bad") (py "Present")
  else span (py "tag-good") (py "Not Present").

(** The local [length_color] of [format_meta_content], lines 202-215, with
    its three branches per field. *)
Definition length_color (field_name : str) (length : Z) : str :=
  if str_eqb field_name (py "title") then
    if (30 <=? length) && (length <=? 60) then py "tag-good"
    else if (length <? 30) || (length >? 60) then py "tag-warning"
    else py "tag-warning"
  else
    if (120 <=? length) && (length <=? 160) then py "tag-good"
    else if (length <? 120) || (length >? 160) then py "tag-warning"
    else py "tag-warning".

(** The text of line 217 for a given badge class. *)
Definition content_with_badge (content : str) (css_class : str) (length : Z) : str :=
  slice_to 100 content ++ (if len content >? 100 then py "..." else []) ++
  py " " ++ span css_class (py "(" ++ str_of_int length ++ py " chars)").

(** The text of line 219; the three characters before [Missing] are the
    ones the source file holds there. *)
Definition missing_marker (field_name : str) : str :=
  span (py "error-message") ([8218; 249; 229]%N ++ py " Missing " ++ field_name).

(** [format_meta_content(content, length, field_name)]; [if content:] is
    false for [None] and for the empty string. *)
Definition format_meta_content (content : option str) (length : Z) (field_name : str) : str :=
  match content with
  | Some (c :: s) => content_with_badge (c :: s) (length_color field_name length) length
  | _ => missing_marker field_name
  end.

(** ** The batch flow *)

(** What [pd.read_csv] produced: the columns in file order, each with its
    cells in row order; [None] is a cell pandas reads as missing (NaN). *)
Definition DataFrame : Type := list (str * list (option pyval)).

Definition columns (df : DataFrame) : list str := map fst df.

(** [df[name]] *)
Fixpoint column (df : DataFrame) (name : str) : list (option pyval) :=
  match df with
  | [] => []
  | (c, cells) :: rest => if str_eqb c name then cells else column rest name
  end.

(** [series.dropna().tolist()] *)
Fixpoint dropna (cells : list (option pyval)) : list pyval :=
  match cells with
  | [] => []
  | Some v :: rest => v :: dropna rest
  | None :: rest => dropna rest
  end.

(** Lines 315-319: the first column whose lower-cased name is a known one. *)
Fixpoint find_url_column (L : Libs) (cols : list str) : option str :=
  match cols with
  | [] => None
  | col :: rest =>
    if str_in (lower L col) [py "url"; py "urls"; py "link"; py "links"]
    then Some col
    else find_url_column L rest
  end.

(** Lines 328-337: the loop over [enumerate(urls)], appending to
    [results].  The [i]-th request meets the network as it is then,
    [net i]. *)
Fixpoint analyze_loop (L : Libs) (net : nat -> Net) (i : nat) (urls : list pyval)
    (results : list AnalysisResult) : Exc (list AnalysisResult) :=
  match urls with
  | [] => Ok results
  | url :: rest =>
    match get_page_data L (net i) url with
    | Ok result => analyze_loop L net (S i) rest (results ++ [result])
    | Raise e => Raise e
    end
  end.

Inductive BatchOutcome : Type :=
| NoUrlColumn
| Analysed (urls : list pyval) (results : list AnalysisResult).

(** Lines 314-337, after the file has been read. *)
Definition batch_flow (L : Libs) (net : nat -> Net) (df : DataFrame) : Exc BatchOutcome :=
  match find_url_column L (columns df) with
  | None => Ok NoUrlColumn
  | Some url_column =>
    let urls := dropna (column df url_column) in
    match analyze_loop L net 0 urls [] with
    | Ok results => Ok (Analysed urls results)
    | Raise e => Raise e
    end
  end.

(** [len(l)] for a list. *)
Definition len_list {A} (l : list A) : Z := Z.of_nat (List.length l).

(** [len([r for r in results if cond(r)])] *)
Definition count_if (cond : AnalysisResult -> bool) (results : list AnalysisResult) : Z :=
  len_list (filter cond results).

(** Lines 390, 394, 398 and 402. *)
Definition success_count (results : list AnalysisResult) : Z :=
  count_if (fun r => match status_code r with SInt 200 => true | _ => false end) results.

Definition canonical_issues (results : list AnalysisResult) : Z :=
  count_if (fun r => negb (is_self_referring r) &&
                     negb (str_eqb (canonical_url r) (py "Not found"))) results.

Definition noindex_count (results : list AnalysisResult) : Z :=
  count_if (fun r => noindex_found r) results.

Definition missing_titles (results : list AnalysisResult) : Z :=
  count_if (fun r => match meta_title r with Some (_ :: _) => false | _ => true end) results.

(** ** The single-URL flow *)

(** Where a Streamlit call draws: the page, or one of the two columns of
    line 269. *)
Inductive Place : Type := Main | Col1 | Col2.

(** The Streamlit calls of the flow, in the order they are made. *)
Inductive StCall : Type :=
| st_spinner (text : str)
| st_warning (text : str)
| st_error (text : str)
| st_markdown (place : Place) (body : str) (unsafe_allow_html : bool).

(** [f'{v}'] for the [url] field. *)
Definition str_of_pyval (v : pyval) : str :=
  match v with
  | PyStr s => s
  | PyObj _ repr => repr
  end.

(** Lines 269-286: the detail block of a record; the three characters
    after [###] in each heading are the ones the source file holds there. *)
Definition render_result (result : AnalysisResult) : list StCall :=
  [st_markdown Col1 (py "### " ++ [63743; 252; 236; 228]%N ++ py " Technical Status") false;
   st_markdown Col1 (py "**URL:** " ++ str_of_pyval (url result)) false;
   st_markdown Col1
     (py "**Status Code:** " ++ format_status_code (status_code result)) true;
   st_markdown Col1
     (py "**Canonical:** " ++
      format_canonical_status (is_self_referring result) (canonical_url result)) true]
  ++ (if negb (is_self_referring result) &&
         negb (str_eqb (canonical_url result) (py "Not found"))
      then [st_markdown Col1
              (py "*Canonical URL: " ++ canonical_url result ++ py "*") false]
      else [])
  ++ [st_markdown Col2 (py "### " ++ [63743; 252; 167; 241]%N ++ py " Robot Directives") false;
      st_markdown Col2
        (py "**Noindex:** " ++ format_noindex_status (noindex_found result)) true;
      st_markdown Col2
        (py "**Nofollow:** " ++ format_nofollow_status (nofollow_found result)) true;
      st_markdown Main (py "### " ++ [63743; 252; 236; 249]%N ++ py " Meta Information") false;
      st_markdown Main
        (py "**Title:** " ++
         format_meta_content (meta_title result) (title_length result) (py "title")) true;
      st_markdown Main
        (py "**Description:** " ++
         format_meta_content (meta_description result) (desc_length result)
           (py "description")) true].

(** Lines 260-288, once the button has been pressed: [if url_input.strip():]
    is false for an input that strips to the empty string, and
    [if result['error']:] is false for [None] and for the empty string. *)
Definition single_url_flow (L : Libs) (requests_get : Net) (url_input : str)
  : Exc (list StCall) :=
  match strip url_input with
  | _ :: _ =>
    match get_page_data L requests_get (PyStr (strip url_input)) with
    | Ok result =>
      Ok (st_spinner (py "Analyzing " ++ url_input ++ py "...") ::
          match error result with
          | Some (c :: msg) => [st_error (py "Error analyzing URL: " ++ c :: msg)]
          | _ => render_result result
          end)
    | Raise e => Raise e
    end
  | [] => Ok [st_warning (py "Please enter a URL to analyze!")]
  end.

(** ** Sample libraries, networks and pages *)

(** [str.lower] on the code points below U+0100; the samples use no others. *)
Definition lower_latin1 (s : str) : str :=
  map (fun c => if ((65 <=? c) && (c <=? 90) ||
                    (192 <=? c) && (c <=? 222) && negb (c =? 215))%N
                then (c + 32)%N else c) s.

(** [urljoin] given by the table of its values at the arguments a sample
    uses. *)
Fixpoint urljoin_table (table : list (str * str * Exc str)) (base : str) (ref : AttrValue)
  : Exc str :=
  match table, ref with
  | (b, u, result) :: rest, AStr s =>
    if str_eqb b base && str_eqb u s then result else urljoin_table rest base ref
  | _, _ => Raise (OtherException (py "Cannot mix str and non-str arguments"))
  end.

(** Libraries under which every body parses to [soup]. *)
Definition sample_libs (soup : Soup) (table : list (str * str * Exc str)) : Libs :=
  {| BeautifulSoup := fun _ => Ok soup;
     urljoin := urljoin_table table;
     lower := lower_latin1 |}.

(** A network that answers every request with [status] and no redirect. *)
Definition serving (status : Z) : Net :=
  fun url _ _ _ => Ok (Response.mk status [] url).

(** A network that answers every request with [status] at [final_url]. *)
Definition redirecting (status : Z) (final_url : str) : Net :=
  fun _ _ _ _ => Ok (Response.mk status [] final_url).

(** A network on which no host can be reached. *)
Definition unreachable : Net :=
  fun _ _ _ _ => Raise (RequestException (py "Connection refused")).

Definition link_canonical (href : str) : Tag.t :=
  Tag.mk (py "link") [(py "rel", AList [py "canonical"]); (py "href", AStr href)] [].

Definition title_tag (text : str) : Tag.t := Tag.mk (py "title") [] text.

Definition meta_named (name content : str) : Tag.t :=
  Tag.mk (py "meta") [(py "name", AStr name); (py "content", AStr content)] [].

(** [<meta name="description">], without a [content] attribute. *)
Definition meta_description_bare : Tag.t :=
  Tag.mk (py "meta") [(py "name", AStr (py "description"))] [].

(** The page of a site map entry, requested without its protocol. *)
Definition page_url : str := py "example.com/page".
Definition page_url_fetched : str := py "https://example.com/page".

(** [<title>Hello</title><meta name="description">] *)
Definition soup_bare_description : Soup :=
  [title_tag (py "Hello"); meta_description_bare].

(** [<link rel="canonical" href="">]; [urljoin] returns its base for an
    empty reference. *)
Definition libs_empty_href : Libs :=
  sample_libs [link_canonical []] [(page_url_fetched, [], Ok page_url_fetched)].

(** [<link rel="canonical" href="/page/">]: a relative reference, with a
    trailing slash the fetched URL does not have. *)
Definition libs_relative_href : Libs :=
  sample_libs [link_canonical (py "/page/")]
    [(page_url_fetched, py "/page/", Ok (py "https://example.com/page/"))].

(** [<link rel="canonical" href="http://[">]: [urljoin] rejects the
    reference with [ValueError('Invalid IPv6 URL')]. *)
Definition libs_bad_href : Libs :=
  sample_libs [link_canonical (py "http://[")]
    [(page_url_fetched, py "http://[", Raise (OtherException (py "Invalid IPv6 URL")))].

(** An error page with a title and a description. *)
Definition libs_error_page : Libs :=
  sample_libs [title_tag (py "Page not found");
               meta_named (py "description") (py "Nothing here.")] [].

(** [<title>   </title>] *)
Definition libs_blank_title : Libs := sample_libs [title_tag (py "   ")] [].

(** A file with the columns [id] and [Link]; the second row has no link. *)
Definition sample_frame : DataFrame :=
  [(py "id", [Some (PyObj (py "int") (py "1")); Some (PyObj (py "int") (py "2"));
              Some (PyObj (py "int") (py "3"))]);
   (py "Link", [Some (PyStr (py "example.com/a")); None;
                Some (PyStr (py "https://example.com/b"))])].

(** [<meta name="robots" content="NOINDEX, NOFOLLOW">] *)
Definition libs_robots : Libs :=
  sample_libs [meta_named (py "robots") (py "NOINDEX, NOFOLLOW")] [].

(** A page with a title of 35 characters between spaces. *)
Definition libs_titled : Libs :=
  sample_libs [title_tag (py "  Hello World Example Page Title Here ")] [].

(** A file whose [url] column pandas read as numbers. *)
Definition numeric_frame : DataFrame :=
  [(py "url", [Some (PyObj (py "int") (py "1")); None;
               Some (PyObj (py "int") (py "2"))])].

(** A network whose failures carry no text. *)
Definition failing_silently : Net :=
  fun _ _ _ _ => Raise (RequestException []).

(** ** Vocabulary of the statements *)

(** The binding of [url] when the [try] body is left: a string argument
    has been replaced by its normalised form before anything can raise, any
    other argument is still bound when [startswith] fails. *)
Definition url_binding (arg : pyval) : pyval :=
  match arg with
  | PyStr s => PyStr (add_protocol s)
  | PyObj _ _ => arg
  end.

(** The [href] the extractor resolves: that of the first
    [<link rel="canonical">], unless it is missing or empty ([if
    canonical_url:], line 94). *)
Definition canonical_href (soup : Soup) : option AttrValue :=
  match find soup (py "link") [(py "rel", py "canonical")] with
  | Some tag =>
    match tag_get tag (py "href") with
    | Some href => if truthy (Some href) then Some href else None
    | None => None
    end
  | None => None
  end.

(** No step of the extraction raises on this page: [urljoin] accepts the
    canonical [href], and the [content] attributes that are read are
    strings. *)
Definition extracts_cleanly (L : Libs) (url : str) (soup : Soup) : Prop :=
  match canonical_href soup with
  | Some href => exists joined, urljoin L url href = Ok joined
  | None => True
  end /\
  match find soup (py "meta") [(py "name", py "robots")] with
  | Some tag => exists content, robots_content L tag = Ok content
  | None => True
  end /\
  match find soup (py "meta") [(py "name", py "description")] with
  | Some tag => exists d, desc_content tag = Ok d
  | None => True
  end.

(** A cell that [dropna] keeps. *)
Definition notna (cell : option pyval) : bool :=
  match cell with Some _ => true | None => false end.

(** The canonical-issues count in the words of the specification: the
    records whose canonical URL exists, that is, is neither ['Not found']
    nor the failure value ['Error'], and is not self-referring. *)
Definition canonical_issues_spec (results : list AnalysisResult) : Z :=
  count_if (fun r => negb (str_eqb (canonical_url r) (py "Not found")) &&
                     negb (str_eqb (canonical_url r) (py "Error")) &&
                     negb (is_self_referring r)) results.

(** The records that carry the failure value as canonical URL. *)
Definition failed_canonical_count (results : list AnalysisResult) : Z :=
  count_if (fun r => str_eqb (canonical_url r) (py "Error") &&
                     negb (is_self_referring r)) results.

Arguments py : simpl never.
Arguments add_protocol : simpl never.

(** The rows of the results table whose cell shows a given text: the
    cell is [render] of the record. *)
Definition rows_showing (render : AnalysisResult -> str) (shown : str)
    (results : list AnalysisResult) : Z :=
  count_if (fun r => str_eqb (render r) shown) results.

(** The records that carry an error. *)
Definition failed_count (results : list AnalysisResult) : Z :=
  count_if (fun r => match error r with Some _ => true | None => false end) results.

(** The test of line 317 on a column name. *)
Definition recognised (L : Libs) (col : str) : bool :=
  str_in (lower L col) [py "url"; py "urls"; py "link"; py "links"].

(** The record [get_page_data] returns for a value that is no string. *)
Definition startswith_failure (v : pyval) : AnalysisResult :=
  failure_record v
    (attribute_error (match v with PyObj type_name _ => type_name | PyStr _ => py "str" end)
       (py "startswith")).

Definition is_str (v : pyval) : bool :=
  match v with PyStr _ => true | PyObj _ _ => false end.

(** The two shapes of a record: no error, or the failure record. *)
Definition record_shape (r : AnalysisResult) : Prop :=
  error r = None \/ exists url e, r = failure_record url e.

(** * Properties *)

(** ** Strings *)

Lemma str_eqb_refl (a : str) : str_eqb a a = true.
Proof.
  induction a as [|c a IH]; simpl; [reflexivity|].
  now rewrite N.eqb_refl, IH.
Qed.

Lemma str_eqb_eq (a b : str) : str_eqb a b = true <-> a = b.
Proof.
  split.
  - revert b; induction a as [|c a IH]; destruct b as [|d b]; simpl;
      try reflexivity; try discriminate.
    intro H. apply andb_true_iff in H. destruct H as [Hc Hs].
    apply N.eqb_eq in Hc. apply IH in Hs. now subst.
  - intros ->. apply str_eqb_refl.
Qed.

Lemma add_protocol_with_scheme (s : str) :
  startswith_any s [py "http://"; py "https://"] = true -> add_protocol s = s.
Proof. unfold add_protocol. now intros ->. Qed.

Lemma add_protocol_without_scheme (s : str) :
  startswith_any s [py "http://"; py "https://"] = false ->
  add_protocol s = py "https://" ++ s.
Proof. unfold add_protocol. now intros ->. Qed.

(** ** The [try] body and its handlers *)

Create HintDb pyrun.
#[local] Hint Unfold get_page_data get_page_data_try bind ret raise lift
  get_url set_url : pyrun.

(** Runs the monadic body symbolically and splits on every test it makes. *)
Ltac split_body :=
  repeat match goal with
  | |- context [match ?x with _ => _ end] =>
    lazymatch x with
    | context [match _ with _ => _ end] => fail
    | _ => destruct x eqn:?
    end
  | |- context [if ?b then _ else _] =>
    lazymatch b with
    | context [match _ with _ => _ end] => fail
    | context [if _ then _ else _] => fail
    | _ => destruct b eqn:?
    end
  end.

Section Extractor.
Variable L : Libs.
Variable requests_get : Net.

Lemma try_leaves_url (arg : pyval) :
  snd (get_page_data_try L requests_get arg) = url_binding arg.
Proof.
  destruct arg as [s|ty rp]; [|reflexivity].
  autounfold with pyrun; simpl.
  split_body; reflexivity.
Qed.

(** The two handlers together: the record of the body, or the failure
    record for whatever it raised. *)
Lemma get_page_data_run (arg : pyval) :
  get_page_data L requests_get arg =
  Ok match fst (get_page_data_try L requests_get arg) with
     | Ok r => r
     | Raise e => failure_record (url_binding arg) e
     end.
Proof.
  pose proof (try_leaves_url arg) as Hurl.
  unfold get_page_data.
  destruct (get_page_data_try L requests_get arg) as [[r|e] u];
    simpl in Hurl; subst u; simpl; [reflexivity|].
  destruct e; reflexivity.
Qed.

(** A body that runs to its end returns a record without error, whose
    [url] is the normalised URL. *)
Lemma try_ok_record (arg : pyval) (r : AnalysisResult) :
  fst (get_page_data_try L requests_get arg) = Ok r ->
  error r = None /\ url r = url_binding arg.
Proof.
  destruct arg as [s|ty rp]; [|discriminate].
  autounfold with pyrun; simpl.
  split_body; simpl; intro Hrun; inversion Hrun; split; reflexivity.
Qed.

(** C1.  Whatever the argument, the libraries and the network do,
    [get_page_data] returns a record and raises nothing: a body that ran
    to its end gives its record, with no error; a body that raised gives
    the failure record, whose [error] field is the text of the exception. *)
Theorem get_page_data_never_raises (arg : pyval) :
  exists result,
    get_page_data L requests_get arg = Ok result /\
    match fst (get_page_data_try L requests_get arg) with
    | Ok r => result = r /\ error result = None
    | Raise e =>
      result = failure_record (url_binding arg) e /\
      error result = Some (str_of_exn e)
    end.
Proof.
  eexists. split; [apply get_page_data_run|].
  destruct (fst (get_page_data_try L requests_get arg)) as [r|e] eqn:Hrun.
  - split; [reflexivity|]. now apply try_ok_record in Hrun.
  - split; reflexivity.
Qed.

(** C2.  When the request raises a [RequestException] (time-out, DNS
    failure, refused connection, too many redirects, TLS error are all
    subclasses), the result is the failure record: [error] is the text of
    the exception, [status_code] is the string ['Error'] and no integer,
    [canonical_url] is ['Error'], the three flags are false, title and
    description are absent and both lengths are 0. *)
Theorem transport_failure_record (s msg : str) :
  requests_get (add_protocol s) headers 10 true = Raise (RequestException msg) ->
  exists result,
    get_page_data L requests_get (PyStr s) = Ok result /\
    error result = Some msg /\
    status_code result = SStr (py "Error") /\
    (forall n, status_code result <> SInt n) /\
    canonical_url result = py "Error" /\
    is_self_referring result = false /\
    noindex_found result = false /\
    nofollow_found result = false /\
    meta_title result = None /\
    meta_description result = None /\
    title_length result = 0 /\
    desc_length result = 0.
Proof.
  intro Hget.
  exists (failure_record (PyStr (add_protocol s)) (RequestException msg)).
  split.
  - autounfold with pyrun; simpl. now rewrite Hget.
  - simpl. repeat split. discriminate.
Qed.

(** C8, as the code has it.  The [url] field is the local variable [url]
    as it is bound when the record is built, on the failure paths as on
    the success path: for a string argument the URL with its protocol
    added, which is the argument itself only when it already starts with
    [http://] or [https://]; for an argument that is no string, the
    argument. *)
Theorem url_field_is_current_binding (arg : pyval) :
  exists result,
    get_page_data L requests_get arg = Ok result /\
    url result = url_binding arg.
Proof.
  eexists. split; [apply get_page_data_run|].
  destruct (fst (get_page_data_try L requests_get arg)) as [r|e] eqn:Hrun.
  - now apply try_ok_record in Hrun.
  - reflexivity.
Qed.

(** C4, as the code has it.  On a record without error: when the page
    has no [<link rel="canonical">], or that element has no [href] or an
    empty one, [canonical_url] is ['Not found'] and [is_self_referring]
    is false; otherwise [canonical_url] is [urljoin] of the requested
    (normalised) URL and the [href], and [is_self_referring] is true
    exactly when that URL and the final URL of the response are equal
    once the trailing slashes of both are removed. *)
Theorem canonical_of_success (s : str) (result : AnalysisResult)
    (response : Response.t) (soup : Soup) :
  get_page_data L requests_get (PyStr s) = Ok result ->
  error result = None ->
  requests_get (add_protocol s) headers 10 true = Ok response ->
  BeautifulSoup L (Response.content response) = Ok soup ->
  match canonical_href soup with
  | None =>
    canonical_url result = py "Not found" /\ is_self_referring result = false
  | Some href =>
    exists joined,
      urljoin L (add_protocol s) href = Ok joined /\
      canonical_url result = joined /\
      (is_self_referring result = true <->
       rstrip_slash joined = rstrip_slash (Response.url response))
  end.
Proof.
  intros Hres Herr Hget Hsoup. revert Hres.
  unfold canonical_href.
  autounfold with pyrun; simpl. rewrite Hget; simpl. rewrite Hsoup; simpl.
  split_body; intro Hres; inversion Hres; subst result; simpl in *;
    try discriminate; try (split; reflexivity);
    (eexists; split; [reflexivity|]; split; [reflexivity|]; apply str_eqb_eq).
Qed.

(** C5, as the code has it.  The status of the response is stored and
    never tested: for a response with a 4xx or 5xx status, if no step of
    the extraction raises, the record is the ordinary one, built from the
    body that came back, with [status_code] that integer and no error.
    (When a step does raise, the handlers give the failure record,
    whatever the status.) *)
Theorem error_status_is_not_a_failure (s : str) (response : Response.t)
    (soup : Soup) :
  requests_get (add_protocol s) headers 10 true = Ok response ->
  400 <= Response.status_code response < 600 ->
  BeautifulSoup L (Response.content response) = Ok soup ->
  extracts_cleanly L (add_protocol s) soup ->
  exists result,
    get_page_data L requests_get (PyStr s) = Ok result /\
    status_code result = SInt (Response.status_code response) /\
    error result = None /\
    url result = PyStr (add_protocol s) /\
    meta_title result =
      match find soup (py "title") [] with
      | Some tag => Some (strip (Tag.get_text tag))
      | None => None
      end /\
    title_length result = len_or_zero (meta_title result) /\
    match find soup (py "meta") [(py "name", py "description")] with
    | Some tag =>
      exists d, desc_content tag = Ok d /\ meta_description result = Some d
    | None => meta_description result = None
    end /\
    desc_length result = len_or_zero (meta_description result) /\
    match canonical_href soup with
    | Some href => urljoin L (add_protocol s) href = Ok (canonical_url result)
    | None => canonical_url result = py "Not found"
    end.
Proof.
  intros Hget _ Hsoup Hclean. revert Hclean.
  unfold extracts_cleanly, canonical_href.
  autounfold with pyrun; simpl. rewrite Hget; simpl. rewrite Hsoup; simpl.
  split_body; intros (Hc & Hr & Hd);
    repeat match goal with
           | H : exists _, _ |- _ => destruct H
           end;
    try discriminate;
    (eexists; split; [reflexivity|]; simpl; repeat esplit;
     try reflexivity; try assumption).
Qed.

(** C10.  On a record without error, a [<title>] whose text is empty or
    all white space gives [meta_title] the empty string, not [None], and
    [title_length] 0; [format_meta_content] then renders the
    missing-title marker, and the counter of missing titles counts the
    record. *)
Theorem blank_title_counts_as_missing (s : str) (result : AnalysisResult)
    (response : Response.t) (soup : Soup) (tag : Tag.t) :
  get_page_data L requests_get (PyStr s) = Ok result ->
  error result = None ->
  requests_get (add_protocol s) headers 10 true = Ok response ->
  BeautifulSoup L (Response.content response) = Ok soup ->
  find soup (py "title") [] = Some tag ->
  strip (Tag.get_text tag) = [] ->
  meta_title result = Some [] /\
  title_length result = 0 /\
  format_meta_content (meta_title result) (title_length result) (py "title")
    = missing_marker (py "title") /\
  forall others, missing_titles (result :: others) = 1 + missing_titles others.
Proof.
  intros Hres Herr Hget Hsoup Htitle Hblank.
  assert (Hfields : meta_title result = Some [] /\ title_length result = 0).
  { revert Hres.
    autounfold with pyrun; simpl. rewrite Hget; simpl. rewrite Hsoup; simpl.
    rewrite Htitle, Hblank.
    split_body; intro Hres; inversion Hres; subst result; simpl in *;
      try discriminate; split; reflexivity. }
  destruct Hfields as [Ht Hl]. rewrite Ht, Hl.
  repeat split.
  intro others. unfold missing_titles, count_if, len_list.
  cbn [filter]. rewrite Ht. cbn [List.length]. lia.
Qed.
End Extractor.

(** ** The meta-content formatter *)

(** C9, as the code has it.  For every non-empty content the formatter
    renders the content with a length badge, whose class is [tag-good]
    exactly when the length is in the band of the field (30 to 60 for
    [title], 120 to 160 for [description]) and [tag-warning] otherwise; so
    30 and 60 are good and 29 and 61 warnings for a title, 120 and 160 good
    and 119 and 161 warnings for a description.  For absent content, and
    for the empty string, it renders the missing-field marker. *)
Theorem meta_badge_classification (c : N) (rest : str) (length : Z) :
  (format_meta_content (Some (c :: rest)) length (py "title") =
   content_with_badge (c :: rest)
     (if (30 <=? length) && (length <=? 60) then py "tag-good" else py "tag-warning")
     length) /\
  (format_meta_content (Some (c :: rest)) length (py "description") =
   content_with_badge (c :: rest)
     (if (120 <=? length) && (length <=? 160) then py "tag-good" else py "tag-warning")
     length) /\
  (length_color (py "title") length = py "tag-good" <-> 30 <= length <= 60) /\
  (length_color (py "description") length = py "tag-good" <-> 120 <= length <= 160) /\
  map (length_color (py "title")) [29; 30; 60; 61] =
    [py "tag-warning"; py "tag-good"; py "tag-good"; py "tag-warning"] /\
  map (length_color (py "description")) [119; 120; 160; 161] =
    [py "tag-warning"; py "tag-good"; py "tag-good"; py "tag-warning"] /\
  (forall field_name,
     format_meta_content None length field_name = missing_marker field_name /\
     format_meta_content (Some []) length field_name = missing_marker field_name).
Proof.
  assert (Htitle : length_color (py "title") length =
                   if (30 <=? length) && (length <=? 60)
                   then py "tag-good" else py "tag-warning").
  { unfold length_color. change (str_eqb (py "title") (py "title")) with true.
    cbv iota. destruct ((30 <=? length) && (length <=? 60)); [reflexivity|].
    destruct ((length <? 30) || (length >? 60)); reflexivity. }
  assert (Hdesc : length_color (py "description") length =
                  if (120 <=? length) && (length <=? 160)
                  then py "tag-good" else py "tag-warning").
  { unfold length_color.
    change (str_eqb (py "description") (py "title")) with false.
    cbv iota. destruct ((120 <=? length) && (length <=? 160)); [reflexivity|].
    destruct ((length <? 120) || (length >? 160)); reflexivity. }
  repeat split; intros;
    try (unfold format_meta_content; rewrite ?Htitle, ?Hdesc; reflexivity).
  - rewrite Htitle in H.
    destruct ((30 <=? length) && (length <=? 60)) eqn:E; [|discriminate H]. lia.
  - rewrite Htitle in H.
    destruct ((30 <=? length) && (length <=? 60)) eqn:E; [|discriminate H]. lia.
  - rewrite Htitle.
    destruct ((30 <=? length) && (length <=? 60)) eqn:E; [reflexivity|lia].
  - rewrite Hdesc in H.
    destruct ((120 <=? length) && (length <=? 160)) eqn:E; [|discriminate H]. lia.
  - rewrite Hdesc in H.
    destruct ((120 <=? length) && (length <=? 160)) eqn:E; [|discriminate H]. lia.
  - rewrite Hdesc.
    destruct ((120 <=? length) && (length <=? 160)) eqn:E; [reflexivity|lia].
Qed.

(** C9 as stated fails for content that is present but empty: no badge is
    rendered, of either class, but the missing-field marker. *)
Lemma empty_content_has_no_badge :
  format_meta_content (Some []) 0 (py "title") = missing_marker (py "title") /\
  forall css_class,
    format_meta_content (Some []) 0 (py "title") <> content_with_badge [] css_class 0.
Proof.
  split; [reflexivity|].
  intro css_class. vm_compute. discriminate.
Qed.

(** ** The batch flow *)

Lemma dropna_is_filter (cells : list (option pyval)) :
  map Some (dropna cells) = filter notna cells.
Proof.
  induction cells as [|[v|] cells IH]; simpl; [reflexivity| |exact IH].
  now rewrite IH.
Qed.

Section Batch.
Variable L : Libs.
Variable net : nat -> Net.

(** The loop appends one record per URL, the [k]-th of them the result
    of the [k]-th call. *)
Lemma analyze_loop_results (urls : list pyval) :
  forall (i : nat) (acc : list AnalysisResult),
  exists results,
    analyze_loop L net i urls acc = Ok (acc ++ results) /\
    List.length results = List.length urls /\
    forall k url_k, nth_error urls k = Some url_k ->
      exists r, nth_error results k = Some r /\
                get_page_data L (net (i + k)%nat) url_k = Ok r.
Proof.
  induction urls as [|u urls IH]; intros i acc.
  - exists []. rewrite app_nil_r. repeat split.
    intros [|k] url_k Hk; discriminate Hk.
  - simpl. rewrite (get_page_data_run L (net i) u).
    destruct (IH (S i) (acc ++ [match fst (get_page_data_try L (net i) u) with
                                | Ok r => r
                                | Raise e => failure_record (url_binding u) e
                                end])) as (rs & Hloop & Hlen & Hnth).
    eexists (_ :: rs). rewrite Hloop, <- app_assoc. simpl.
    split; [reflexivity|]. split; [now rewrite Hlen|].
    intros [|k] url_k Hk; simpl in Hk.
    + inversion Hk; subst url_k. eexists. split; [reflexivity|].
      rewrite Nat.add_0_r. apply get_page_data_run.
    + destruct (Hnth k url_k Hk) as (r & Hr & Hcall).
      exists r. split; [exact Hr|].
      now rewrite Nat.add_succ_r.
Qed.

(** C6.  When the file has a recognised URL column, the batch flow
    analyses the cells of that column that are not missing, in row
    order, and returns exactly one record for each: the [k]-th record is
    what [get_page_data] returned for the [k]-th such cell, and carries
    its URL. *)
Theorem batch_one_result_per_url (df : DataFrame) (url_column : str) :
  find_url_column L (columns df) = Some url_column ->
  exists results,
    let cells := column df url_column in
    let urls := dropna cells in
    batch_flow L net df = Ok (Analysed urls results) /\
    map Some urls = filter notna cells /\
    len_list results = len_list (filter notna cells) /\
    (forall k url_k, nth_error urls k = Some url_k ->
       exists r, nth_error results k = Some r /\
                 get_page_data L (net k) url_k = Ok r /\
                 url r = url_binding url_k).
Proof.
  intro Hcol.
  destruct (analyze_loop_results (dropna (column df url_column)) 0 [])
    as (results & Hloop & Hlen & Hnth).
  exists results. cbv zeta.
  unfold batch_flow. rewrite Hcol, Hloop. simpl.
  split; [reflexivity|]. split; [apply dropna_is_filter|]. split.
  - unfold len_list. rewrite Hlen, <- dropna_is_filter, length_map. reflexivity.
  - intros k url_k Hk. destruct (Hnth k url_k Hk) as (r & Hr & Hcall).
    exists r. repeat split; try assumption.
    simpl in Hcall. rewrite get_page_data_run in Hcall. inversion Hcall.
    destruct (fst (get_page_data_try L (net k) url_k)) as [r'|e] eqn:Hrun.
    + now apply try_ok_record in Hrun.
    + reflexivity.
Qed.
End Batch.

(** C7, as the code has it.  The counter counts the records that are not
    self-referring and whose [canonical_url] is not ['Not found'].  The
    failure records, whose [canonical_url] is ['Error'], are among them:
    the counter is the count of the specification plus the number of
    failed records, and every failure record adds one. *)
Theorem canonical_issues_counts_failures (results : list AnalysisResult) :
  canonical_issues results =
    canonical_issues_spec results + failed_canonical_count results /\
  forall url e,
    canonical_issues (failure_record url e :: results) = 1 + canonical_issues results.
Proof.
  split.
  - unfold canonical_issues, canonical_issues_spec, failed_canonical_count,
      count_if, len_list.
    induction results as [|r rs IH]; [reflexivity|].
    cbn [filter].
    destruct (is_self_referring r);
      destruct (str_eqb (canonical_url r) (py "Not found")) eqn:Enf;
      destruct (str_eqb (canonical_url r) (py "Error")) eqn:Eerr;
      cbn [negb andb List.length]; try lia.
    apply str_eqb_eq in Enf, Eerr. rewrite Enf in Eerr. discriminate Eerr.
  - intros url e. unfold canonical_issues, count_if, len_list.
    cbn [filter is_self_referring canonical_url failure_record].
    change (str_eqb (py "Error") (py "Not found")) with false.
    cbn [negb andb List.length]. lia.
Qed.

(** ** The extractor on sample pages *)

(** The failure record of a host that cannot be reached. *)
Lemma transport_failure_record_witness :
  exists result,
    get_page_data (sample_libs [] []) unreachable (PyStr page_url) = Ok result /\
    error result = Some (py "Connection refused") /\
    status_code result = SStr (py "Error").
Proof.
  destruct (@transport_failure_record (sample_libs [] []) unreachable page_url
              (py "Connection refused") eq_refl)
    as (result & Hres & Herr & Hstatus & _).
  exists result. repeat split; assumption.
Defined.

(** C3.  A page that was fetched with status 200 and holds
    [<meta name="description">] without [content]: line 122 calls [strip]
    on [None], the second handler catches the [AttributeError], and the
    result is the failure record, with the status and the title of the
    page lost, where the robots tag next to it reads the same attribute
    with a default. *)
Theorem missing_description_content_is_fatal :
  find soup_bare_description (py "meta") [(py "name", py "description")]
    = Some meta_description_bare /\
  tag_get meta_description_bare (py "content") = None /\
  robots_content (sample_libs [] []) meta_description_bare = Ok [] /\
  get_page_data (sample_libs soup_bare_description []) (serving 200) (PyStr page_url)
    = Ok (failure_record (PyStr page_url_fetched)
            (OtherException (py "'NoneType' object has no attribute 'strip'"))).
Proof. repeat split. Qed.

(** C4 as stated fails for a canonical link with an empty [href]: the
    link is present and its [href] resolves to the fetched URL, which is
    also the final URL, but the record says ['Not found'] and not
    self-referring. *)
Lemma empty_href_is_not_resolved :
  exists result joined,
    get_page_data libs_empty_href (serving 200) (PyStr page_url) = Ok result /\
    error result = None /\
    find [link_canonical []] (py "link") [(py "rel", py "canonical")]
      = Some (link_canonical []) /\
    tag_get (link_canonical []) (py "href") = Some (AStr []) /\
    urljoin libs_empty_href page_url_fetched (AStr []) = Ok joined /\
    rstrip_slash joined = rstrip_slash page_url_fetched /\
    is_self_referring result = false /\
    canonical_url result = py "Not found" /\
    canonical_url result <> joined.
Proof.
  do 2 eexists. split; [vm_compute; reflexivity|].
  repeat split. vm_compute. discriminate.
Qed.

(** A relative canonical link with a trailing slash, on the page it names. *)
Lemma canonical_of_success_witness :
  exists result joined,
    get_page_data libs_relative_href (serving 200) (PyStr page_url) = Ok result /\
    urljoin libs_relative_href page_url_fetched (AStr (py "/page/")) = Ok joined /\
    canonical_url result = joined /\
    (is_self_referring result = true <->
     rstrip_slash joined = rstrip_slash page_url_fetched).
Proof.
  eexists.
  assert (Hres : get_page_data libs_relative_href (serving 200) (PyStr page_url)
                 = Ok _) by (vm_compute; reflexivity).
  destruct (@canonical_of_success libs_relative_href (serving 200) page_url _
              (Response.mk 200 [] page_url_fetched)
              [link_canonical (py "/page/")]
              Hres eq_refl eq_refl eq_refl)
    as (joined & Hjoin & Hcanon & Hself).
  exists joined. repeat split; try assumption; apply Hself.
Defined.

(** C5 as stated fails on a 404 page whose canonical [href] [urljoin]
    rejects: the fetch completed, yet the record is the failure record. *)
Lemma error_page_can_fail :
  exists response result,
    serving 404 page_url_fetched headers 10 true = Ok response /\
    Response.status_code response = 404 /\
    get_page_data libs_bad_href (serving 404) (PyStr page_url) = Ok result /\
    status_code result = SStr (py "Error") /\
    error result = Some (py "Invalid IPv6 URL").
Proof.
  do 2 eexists. split; [reflexivity|]. split; [reflexivity|].
  split; [vm_compute; reflexivity|]. split; reflexivity.
Qed.

(** A 404 page with a title and a description. *)
Lemma error_status_is_not_a_failure_witness :
  exists result,
    get_page_data libs_error_page (serving 404) (PyStr page_url) = Ok result /\
    status_code result = SInt 404 /\
    error result = None /\
    meta_title result = Some (py "Page not found").
Proof.
  destruct (@error_status_is_not_a_failure libs_error_page (serving 404) page_url
              (Response.mk 404 [] page_url_fetched)
              [title_tag (py "Page not found");
               meta_named (py "description") (py "Nothing here.")])
    as (result & Hres & Hstatus & Herr & _ & Htitle & _).
  - reflexivity.
  - simpl. lia.
  - reflexivity.
  - repeat split. eexists. reflexivity.
  - exists result. repeat split; assumption.
Defined.

(** C8 as stated fails when the request for a URL given without protocol
    fails: the [url] field holds the URL with [https://] added, not the
    input. *)
Lemma url_on_failure_is_normalised :
  exists result,
    get_page_data (sample_libs [] []) unreachable (PyStr page_url) = Ok result /\
    error result = Some (py "Connection refused") /\
    url result = PyStr (py "https://example.com/page") /\
    url result <> PyStr page_url.
Proof.
  eexists. split; [vm_compute; reflexivity|].
  repeat split. vm_compute. discriminate.
Qed.

(** A page whose title is three spaces. *)
Lemma blank_title_counts_as_missing_witness :
  exists result,
    get_page_data libs_blank_title (serving 200) (PyStr page_url) = Ok result /\
    meta_title result = Some [] /\
    title_length result = 0 /\
    format_meta_content (meta_title result) (title_length result) (py "title")
      = missing_marker (py "title") /\
    missing_titles [result] = 1.
Proof.
  eexists.
  assert (Hres : get_page_data libs_blank_title (serving 200) (PyStr page_url)
                 = Ok _) by (vm_compute; reflexivity).
  destruct (@blank_title_counts_as_missing libs_blank_title (serving 200) page_url _
              (Response.mk 200 [] page_url_fetched)
              [title_tag (py "   ")] (title_tag (py "   "))
              Hres eq_refl eq_refl eq_refl eq_refl eq_refl)
    as (Htitle & Hlen & Hfmt & Hcount).
  split; [exact Hres|]. split; [exact Htitle|]. split; [exact Hlen|].
  split; [exact Hfmt|]. apply (Hcount []).
Defined.

(** ** The batch flow on a sample file *)

(** Three rows, one of them without a link: two records. *)
Lemma batch_one_result_per_url_witness :
  exists results,
    batch_flow (sample_libs [] []) (fun _ => unreachable) sample_frame
      = Ok (Analysed [PyStr (py "example.com/a"); PyStr (py "https://example.com/b")]
              results) /\
    len_list results = 2.
Proof.
  destruct (@batch_one_result_per_url (sample_libs [] []) (fun _ => unreachable)
              sample_frame (py "Link") eq_refl)
    as (results & Hflow & _ & Hlen & _).
  exists results. split; [exact Hflow | exact Hlen].
Defined.

(** C7 as stated fails on a batch with a URL that cannot be fetched: no
    canonical URL exists for its record, and the counter counts it. *)
Lemma failed_fetch_is_a_canonical_issue :
  exists results,
    batch_flow (sample_libs [] []) (fun _ => unreachable)
      [(py "url", [Some (PyStr page_url)])]
      = Ok (Analysed [PyStr page_url] results) /\
    canonical_issues results = 1 /\
    canonical_issues_spec results = 0.
Proof.
  eexists. split; [vm_compute; reflexivity|]. split; reflexivity.
Qed.

(** * Further properties *)

(** ** Prefixes, substrings and stripping *)

Lemma startswith_prefix (p s : str) :
  startswith s p = true <-> exists post, s = p ++ post.
Proof.
  revert s; induction p as [|c p IH]; intro s; simpl.
  - split; [intros _; now exists s | intros _; now destruct s].
  - destruct s as [|d s]; simpl.
    + split; [discriminate | intros [post H]; discriminate H].
    + rewrite andb_true_iff, N.eqb_eq, IH. split.
      * intros [-> [post ->]]. now exists post.
      * intros [post H]. inversion H. split; [reflexivity | now exists post].
Qed.

Lemma contains_step (hay needle : str) :
  contains hay needle =
  startswith hay needle ||
  match hay with [] => false | _ :: hay' => contains hay' needle end.
Proof. destruct hay; reflexivity. Qed.

(** [needle in hay] holds exactly when [needle] is a substring. *)
Lemma contains_substring (hay needle : str) :
  contains hay needle = true <-> exists pre post, hay = pre ++ needle ++ post.
Proof.
  split.
  - induction hay as [|c hay IH]; rewrite contains_step, orb_true_iff.
    + intros [H|H]; [|discriminate H].
      apply startswith_prefix in H. destruct H as [post H]. now exists [], post.
    + intros [H|H].
      * apply startswith_prefix in H. destruct H as [post H]. now exists [], post.
      * destruct (IH H) as (pre & post & ->). now exists (c :: pre), post.
  - intros (pre & post & ->).
    induction pre as [|c pre IH]; rewrite contains_step, orb_true_iff.
    + left. apply startswith_prefix. now exists post.
    + right. exact IH.
Qed.

Lemma lstrip_by_split (f : N -> bool) (s : str) :
  exists pre, s = pre ++ lstrip_by f s /\ forallb f pre = true.
Proof.
  induction s as [|c s (pre & Hs & Hpre)]; simpl.
  - now exists [].
  - destruct (f c) eqn:Hc.
    + exists (c :: pre). simpl. rewrite Hc, Hpre. split; [now f_equal | reflexivity].
    + now exists [].
Qed.

Lemma lstrip_by_head (f : N -> bool) (s : str) (c : N) (rest : str) :
  lstrip_by f s = c :: rest -> f c = false.
Proof.
  induction s as [|d s IH]; simpl; [discriminate|].
  destruct (f d) eqn:Hd; [exact IH|].
  intro H. inversion H. now subst.
Qed.

Lemma lstrip_by_all (f : N -> bool) (s : str) :
  forallb f s = true -> forall t, lstrip_by f (s ++ t) = lstrip_by f t.
Proof.
  induction s as [|c s IH]; simpl; [reflexivity|].
  intros H t. apply andb_true_iff in H. destruct H as [Hc Hs].
  rewrite Hc. now apply IH.
Qed.

Lemma lstrip_by_nil (f : N -> bool) (s : str) :
  lstrip_by f s = [] <-> forallb f s = true.
Proof.
  split.
  - intro H. destruct (lstrip_by_split f s) as (pre & Hs & Hpre).
    rewrite H, app_nil_r in Hs. now subst.
  - intro H. rewrite <- (app_nil_r s). now rewrite lstrip_by_all.
Qed.

Lemma forallb_rev (f : N -> bool) (s : str) : forallb f (rev s) = forallb f s.
Proof.
  induction s as [|c s IH]; simpl; [reflexivity|].
  rewrite forallb_app, IH. simpl. rewrite andb_true_r. apply andb_comm.
Qed.

Lemma rstrip_by_split (f : N -> bool) (s : str) :
  exists post, s = rstrip_by f s ++ post /\ forallb f post = true.
Proof.
  destruct (lstrip_by_split f (rev s)) as (pre & Hs & Hpre).
  exists (rev pre). split.
  - unfold rstrip_by. rewrite <- rev_app_distr, <- Hs. symmetry. apply rev_involutive.
  - now rewrite forallb_rev.
Qed.

Lemma rstrip_by_last (f : N -> bool) (s init : str) (c : N) :
  rstrip_by f s = init ++ [c] -> f c = false.
Proof.
  unfold rstrip_by. intro H.
  apply (f_equal (@rev N)) in H. rewrite rev_involutive, rev_app_distr in H.
  simpl in H. now apply lstrip_by_head in H.
Qed.

Lemma rstrip_by_all (f : N -> bool) (s post : str) :
  forallb f post = true -> rstrip_by f (s ++ post) = rstrip_by f s.
Proof.
  intro H. unfold rstrip_by. rewrite rev_app_distr.
  rewrite lstrip_by_all; [reflexivity | now rewrite forallb_rev].
Qed.

Lemma rstrip_by_nil (f : N -> bool) (s : str) :
  rstrip_by f s = [] <-> forallb f s = true.
Proof.
  unfold rstrip_by. rewrite <- (forallb_rev f s), <- lstrip_by_nil.
  split; intro H.
  - apply (f_equal (@rev N)) in H. now rewrite rev_involutive in H.
  - now rewrite H.
Qed.

Lemma rstrip_by_fixed (f : N -> bool) (s : str) :
  rstrip_by f (rstrip_by f s) = rstrip_by f s.
Proof.
  destruct (rstrip_by_split f s) as (post & Hs & Hpost).
  pose proof (rstrip_by_all f (rstrip_by f s) post Hpost) as H.
  rewrite <- Hs in H. symmetry. exact H.
Qed.

(** Two strings have the same [rstrip] exactly when they differ only in
    their trailing stripped characters. *)
Lemma rstrip_by_same (f : N -> bool) (a b : str) :
  rstrip_by f a = rstrip_by f b <->
  exists core ta tb,
    a = core ++ ta /\ b = core ++ tb /\ forallb f ta = true /\ forallb f tb = true.
Proof.
  split.
  - intro H.
    destruct (rstrip_by_split f a) as (ta & Ha & Hta).
    destruct (rstrip_by_split f b) as (tb & Hb & Htb).
    exists (rstrip_by f a), ta, tb. rewrite H at 2. now repeat split.
  - intros (core & ta & tb & -> & -> & Hta & Htb).
    now rewrite !rstrip_by_all.
Qed.

(** [strip] gives the empty string exactly on strings of white space. *)
Lemma strip_nil (s : str) : strip s = [] <-> forallb isspace s = true.
Proof.
  unfold strip. rewrite rstrip_by_nil.
  destruct (lstrip_by_split isspace s) as (pre & Hs & Hpre).
  split; intro H.
  - rewrite Hs, forallb_app, Hpre. exact H.
  - rewrite Hs, forallb_app, Hpre in H. exact H.
Qed.

Lemma strip_head (s : str) (c : N) (rest : str) :
  strip s = c :: rest -> isspace c = false.
Proof.
  unfold strip. intro H.
  destruct (rstrip_by_split isspace (lstrip_by isspace s)) as (post & Hs & _).
  rewrite H in Hs. simpl in Hs. now apply lstrip_by_head in Hs.
Qed.

Lemma strip_last (s init : str) (c : N) :
  strip s = init ++ [c] -> isspace c = false.
Proof. unfold strip. apply rstrip_by_last. Qed.

Lemma strip_split (s : str) :
  exists pre post,
    s = pre ++ strip s ++ post /\
    forallb isspace pre = true /\ forallb isspace post = true.
Proof.
  destruct (lstrip_by_split isspace s) as (pre & Hs & Hpre).
  destruct (rstrip_by_split isspace (lstrip_by isspace s)) as (post & Hl & Hpost).
  exists pre, post. unfold strip. rewrite <- Hl. now repeat split.
Qed.

(** ** More on the extractor *)

(** X1.  The protocol step of lines 75-76: its result always starts with
    [http://] or [https://], it leaves a URL alone exactly when the URL
    already starts with one of the two, and applying it twice is applying
    it once. *)
Theorem add_protocol_normalises (s : str) :
  startswith_any (add_protocol s) [py "http://"; py "https://"] = true /\
  (add_protocol s = s <-> startswith_any s [py "http://"; py "https://"] = true) /\
  add_protocol (add_protocol s) = add_protocol s.
Proof.
  assert (Hadded : startswith_any (py "https://" ++ s) [py "http://"; py "https://"]
                   = true).
  { unfold startswith_any. cbn [existsb]. apply orb_true_iff. right.
    apply orb_true_iff. left. apply startswith_prefix. now exists s. }
  assert (Hhas : startswith_any (add_protocol s) [py "http://"; py "https://"] = true).
  { unfold add_protocol.
    destruct (startswith_any s [py "http://"; py "https://"]) eqn:E;
      [exact E | exact Hadded]. }
  split; [exact Hhas|]. split.
  - split.
    + intro H. now rewrite <- H.
    + apply add_protocol_with_scheme.
  - now apply add_protocol_with_scheme.
Qed.

Section ExtractorMore.
Variable L : Libs.

(** X2.  The network is asked one question: the GET of the normalised URL
    with the fixed headers, a timeout of 10 and redirects followed.  Two
    networks that answer it alike give the same record. *)
Theorem only_the_normalised_request_matters (q1 q2 : Net) (s : str) :
  q1 (add_protocol s) headers 10 true = q2 (add_protocol s) headers 10 true ->
  get_page_data L q1 (PyStr s) = get_page_data L q2 (PyStr s).
Proof.
  intro H. autounfold with pyrun; simpl. now rewrite H.
Qed.

Variable requests_get : Net.

(** X3.  Every record keeps the invariant of the data model: either it
    has no error, an integer status and the normalised URL, or it has an
    error and is the failure record, with status ['Error'], canonical
    ['Error'], the flags false, no title, no description and lengths 0. *)
Theorem record_is_success_or_failure (arg : pyval) (result : AnalysisResult) :
  get_page_data L requests_get arg = Ok result ->
  (error result = None /\ (exists n, status_code result = SInt n) /\
   url result = url_binding arg) \/
  (exists e, result = failure_record (url_binding arg) e /\
             error result = Some (str_of_exn e)).
Proof.
  rewrite get_page_data_run. intro H. inversion H as [Hres]. clear H.
  destruct (fst (get_page_data_try L requests_get arg)) as [r|e] eqn:Hrun.
  - left. destruct (try_ok_record _ _ _ Hrun) as [Herr Hurl].
    repeat split; try assumption.
    destruct arg as [s|ty rp]; [|discriminate Hrun].
    revert Hrun. autounfold with pyrun; simpl.
    split_body; simpl; intro Hrun; inversion Hrun; eexists; reflexivity.
  - right. exists e. split; reflexivity.
Qed.

(** X4.  In every record the title and the description are trimmed, and
    the lengths are those of the trimmed texts: a title that is present
    neither starts nor ends with a white-space character, [title_length]
    is its number of characters, and 0 when there is none; likewise for
    the description. *)
Theorem texts_are_trimmed (arg : pyval) (result : AnalysisResult) :
  get_page_data L requests_get arg = Ok result ->
  title_length result = len_or_zero (meta_title result) /\
  desc_length result = len_or_zero (meta_description result) /\
  forall text,
    meta_title result = Some text \/ meta_description result = Some text ->
    (forall c rest, text = c :: rest -> isspace c = false) /\
    (forall init c, text = init ++ [c] -> isspace c = false).
Proof.
  rewrite get_page_data_run. intro H. inversion H as [Hres]. clear H.
  destruct (fst (get_page_data_try L requests_get arg)) as [r|e] eqn:Hrun.
  - destruct arg as [s|ty rp]; [|discriminate Hrun].
    revert Hrun. autounfold with pyrun; unfold desc_content; simpl.
    split_body; simpl; intro Hrun; inversion Hrun; simpl;
      (split; [reflexivity|]); (split; [reflexivity|]);
      intros text [Ht|Ht]; inversion Ht; subst text;
      (split; [intros c rest; apply strip_head | intros init c; apply strip_last]).
  - simpl. repeat split; destruct H as [H|H]; discriminate H.
Qed.

(** X5.  On a record without error the two robots flags come from the
    first [<meta name="robots">] alone: without such a tag both are false;
    with one, [noindex_found] is true exactly when the lower-cased
    [content] (the empty string when the attribute is missing) has
    [noindex] as a substring, and [nofollow_found] likewise for
    [nofollow]. *)
Theorem robots_flags_of_success (s : str) (result : AnalysisResult)
    (response : Response.t) (soup : Soup) :
  get_page_data L requests_get (PyStr s) = Ok result ->
  error result = None ->
  requests_get (add_protocol s) headers 10 true = Ok response ->
  BeautifulSoup L (Response.content response) = Ok soup ->
  match find soup (py "meta") [(py "name", py "robots")] with
  | None => noindex_found result = false /\ nofollow_found result = false
  | Some tag =>
    exists content,
      robots_content L tag = Ok content /\
      (noindex_found result = true <->
       exists pre post, content = pre ++ py "noindex" ++ post) /\
      (nofollow_found result = true <->
       exists pre post, content = pre ++ py "nofollow" ++ post)
  end.
Proof.
  intros Hres Herr Hget Hsoup. revert Hres.
  autounfold with pyrun; simpl. rewrite Hget; simpl. rewrite Hsoup; simpl.
  split_body; intro Hres; inversion Hres; subst result; simpl in *;
    try discriminate; try (split; reflexivity);
    (eexists; split; [reflexivity|]; split; apply contains_substring).
Qed.

(** X6.  On a record without error whose page has a canonical [href],
    [is_self_referring] is true exactly when the resolved canonical URL
    and the final URL of the response are one common string followed, in
    each, by any number of slashes. *)
Theorem self_referring_up_to_slashes (s : str) (result : AnalysisResult)
    (response : Response.t) (soup : Soup) (href : AttrValue) (joined : str) :
  get_page_data L requests_get (PyStr s) = Ok result ->
  error result = None ->
  requests_get (add_protocol s) headers 10 true = Ok response ->
  BeautifulSoup L (Response.content response) = Ok soup ->
  canonical_href soup = Some href ->
  urljoin L (add_protocol s) href = Ok joined ->
  (is_self_referring result = true <->
   exists core slashes slashes',
     joined = core ++ slashes /\
     Response.url response = core ++ slashes' /\
     forallb (N.eqb 47) slashes = true /\
     forallb (N.eqb 47) slashes' = true).
Proof.
  intros Hres Herr Hget Hsoup Hhref Hjoin.
  rewrite <- (rstrip_by_same (N.eqb 47)).
  change (rstrip_by (N.eqb 47)) with rstrip_slash.
  rewrite <- str_eqb_eq.
  unfold canonical_href in Hhref.
  destruct (find soup (py "link") [(py "rel", py "canonical")]) as [tag|] eqn:Hfind;
    [|discriminate Hhref].
  destruct (tag_get tag (py "href")) as [h|] eqn:Hh; [|discriminate Hhref].
  destruct (truthy (Some h)) eqn:Htruthy; [|discriminate Hhref].
  inversion Hhref; subst h. revert Hres.
  autounfold with pyrun; simpl. rewrite Hget; simpl. rewrite Hsoup; simpl.
  rewrite Hfind, Hh; simpl.
  destruct href as [[|c hs]|[|x xs]]; try discriminate Htruthy;
    rewrite Hjoin; simpl;
    split_body; intro Hres; inversion Hres; subst result; simpl in *;
    try discriminate; reflexivity.
Qed.
End ExtractorMore.

(** ** More on the formatters *)

Lemma str_eqb_neq (a b : str) : a <> b -> str_eqb a b = false.
Proof.
  intro H. destruct (str_eqb a b) eqn:E; [|reflexivity].
  apply str_eqb_eq in E. contradiction.
Qed.

Lemma format_status_code_cases (c : StatusCode) :
  c = SInt 200 \/
  format_status_code c = span (py "status-error") (str_of_status c).
Proof.
  destruct c as [n|s]; [|right; reflexivity].
  destruct (Z.eq_dec n 200) as [->|Hn]; [left; reflexivity|right].
  destruct n as [|p|p]; try reflexivity.
  repeat (destruct p as [p|p|]; try reflexivity; try (exfalso; apply Hn; reflexivity)).
Qed.

(** X7.  The status badge is the green one exactly for the integer 200:
    every other status, the ['Error'] of a failure record included, gets
    the red class, with the status as its text. *)
Theorem status_badge_green_only_for_200 (c : StatusCode) :
  (format_status_code c = span (py "status-200") (py "200") <-> c = SInt 200) /\
  (c = SInt 200 \/
   format_status_code c = span (py "status-error") (str_of_status c)).
Proof.
  split.
  - split.
    + destruct (format_status_code_cases c) as [->|Hred]; [reflexivity|].
      rewrite Hred. intro H. exfalso. revert H.
      generalize (str_of_status c). intros body H.
      vm_compute in H. discriminate H.
    + intros ->. reflexivity.
  - apply format_status_code_cases.
Qed.

(** X8.  What is shown of a long text: content of at most 100 characters
    is shown whole, longer content is cut to its first 100 characters
    followed by three dots; the badge follows in both cases. *)
Theorem long_content_is_cut (content css_class : str) (length : Z) :
  content_with_badge content css_class length =
  (if len content <=? 100 then content
   else firstn 100 content ++ py "...") ++
  py " " ++ span css_class (py "(" ++ str_of_int length ++ py " chars)").
Proof.
  unfold content_with_badge, slice_to, len.
  destruct (Z.of_nat (List.length content) <=? 100) eqn:E.
  - apply Z.leb_le in E.
    replace (Z.of_nat (List.length content) >? 100) with false
      by (symmetry; rewrite Z.gtb_ltb; apply Z.ltb_ge; exact E).
    rewrite firstn_all2 by lia. reflexivity.
  - apply Z.leb_gt in E.
    replace (Z.of_nat (List.length content) >? 100) with true
      by (symmetry; rewrite Z.gtb_ltb; apply Z.ltb_lt; exact E).
    now rewrite <- app_assoc.
Qed.

Lemma badge_is_not_marker (content css_class : str) (length : Z) :
  content_with_badge content css_class length <> missing_marker (py "title").
Proof.
  unfold content_with_badge, missing_marker, span.
  generalize (slice_to 100 content), (str_of_int length).
  generalize (if len content >? 100 then py "..." else []).
  intros dots shown digits H.
  apply (f_equal (@rev N)) in H. rewrite !rev_app_distr in H.
  vm_compute in H. discriminate H.
Qed.

Lemma count_if_ext (f g : AnalysisResult -> bool) (results : list AnalysisResult) :
  (forall r, f r = g r) -> count_if f results = count_if g results.
Proof.
  intro H. unfold count_if. f_equal. now apply filter_ext.
Qed.

(** X9.  The four summary counters count the rows of the results table by
    what their cells show: the successful requests are the rows with the
    green [200] badge, the canonical issues the rows whose canonical badge
    reads [Non self-referring], the noindex pages the rows whose noindex
    badge reads [Present], and the missing titles the rows whose title
    cell is the missing-title marker. *)
Theorem counters_agree_with_cells (results : list AnalysisResult) :
  success_count results =
    rows_showing (fun r => format_status_code (status_code r))
      (span (py "status-200") (py "200")) results /\
  canonical_issues results =
    rows_showing (fun r => format_canonical_status (is_self_referring r) (canonical_url r))
      (span (py "tag-bad") (py "Non self-referring")) results /\
  noindex_count results =
    rows_showing (fun r => format_noindex_status (noindex_found r))
      (span (py "tag-bad") (py "Present")) results /\
  missing_titles results =
    rows_showing (fun r => format_meta_content (meta_title r) (title_length r) (py "title"))
      (missing_marker (py "title")) results.
Proof.
  unfold success_count, canonical_issues, noindex_count, missing_titles, rows_showing.
  repeat split; apply count_if_ext; intro r.
  - destruct (format_status_code_cases (status_code r)) as [->|Hred];
      [reflexivity|].
    rewrite Hred.
    assert (Hnot : status_code r <> SInt 200).
    { intro H. rewrite H in Hred. vm_compute in Hred. discriminate Hred. }
    transitivity false.
    + destruct (status_code r) as [n|s]; [|reflexivity].
      destruct n as [|p|p]; try reflexivity.
      repeat (destruct p as [p|p|]; try reflexivity;
              try (exfalso; apply Hnot; reflexivity)).
    + symmetry. apply str_eqb_neq. generalize (str_of_status (status_code r)).
      intros body H. vm_compute in H. discriminate H.
  - unfold format_canonical_status.
    destruct (is_self_referring r),
      (str_eqb (canonical_url r) (py "Not found")); reflexivity.
  - destruct (noindex_found r); reflexivity.
  - unfold format_meta_content.
    destruct (meta_title r) as [[|c t]|]; try (symmetry; apply str_eqb_refl).
    symmetry. apply str_eqb_neq, badge_is_not_marker.
Qed.

(** X10.  The title and description cells of a record show the true
    lengths: for a record of [get_page_data] with a non-empty title, the
    title cell is the title, cut as above, with its number of characters
    in the badge, green exactly when that number is between 30 and 60;
    likewise for a non-empty description, between 120 and 160. *)
Theorem cells_show_true_lengths (L : Libs) (requests_get : Net) (arg : pyval)
    (result : AnalysisResult) :
  get_page_data L requests_get arg = Ok result ->
  (forall c t, meta_title result = Some (c :: t) ->
     format_meta_content (meta_title result) (title_length result) (py "title") =
     content_with_badge (c :: t)
       (if (30 <=? len (c :: t)) && (len (c :: t) <=? 60)
        then py "tag-good" else py "tag-warning")
       (len (c :: t))) /\
  (forall c t, meta_description result = Some (c :: t) ->
     format_meta_content (meta_description result) (desc_length result)
       (py "description") =
     content_with_badge (c :: t)
       (if (120 <=? len (c :: t)) && (len (c :: t) <=? 160)
        then py "tag-good" else py "tag-warning")
       (len (c :: t))).
Proof.
  intro Hres.
  assert (Hlen : title_length result = len_or_zero (meta_title result) /\
                 desc_length result = len_or_zero (meta_description result)).
  { rewrite get_page_data_run in Hres. inversion Hres as [Hr]. clear Hres.
    destruct (fst (get_page_data_try L requests_get arg)) as [r|e] eqn:Hrun;
      [|split; reflexivity].
    destruct arg as [s|ty rp]; [|discriminate Hrun].
    revert Hrun. autounfold with pyrun; simpl.
    split_body; simpl; intro Hrun; inversion Hrun; split; reflexivity. }
  destruct Hlen as [Ht Hd]. rewrite Ht, Hd.
  split; intros c t H; rewrite H; cbn [len_or_zero format_meta_content];
    f_equal; unfold length_color.
  - change (str_eqb (py "title") (py "title")) with true. cbv iota.
    destruct ((30 <=? len (c :: t)) && (len (c :: t) <=? 60)); [reflexivity|].
    destruct ((len (c :: t) <? 30) || (len (c :: t) >? 60)); reflexivity.
  - change (str_eqb (py "description") (py "title")) with false. cbv iota.
    destruct ((120 <=? len (c :: t)) && (len (c :: t) <=? 160)); [reflexivity|].
    destruct ((len (c :: t) <? 120) || (len (c :: t) >? 160)); reflexivity.
Qed.

(** ** More on the batch flow *)

(** X11.  The URL column is the first column whose lower-cased name is
    [url], [urls], [link] or [links]: when one is found, no column before
    it passes the test; when none is found, no column passes it. *)
Theorem find_url_column_first_match (L : Libs) (cols : list str) :
  match find_url_column L cols with
  | Some col =>
    exists before after,
      cols = before ++ col :: after /\
      recognised L col = true /\
      forallb (fun c => negb (recognised L c)) before = true
  | None => forallb (fun c => negb (recognised L c)) cols = true
  end.
Proof.
  induction cols as [|c cols IH]; [reflexivity|].
  cbn [find_url_column forallb].
  change (str_in (lower L c) [py "url"; py "urls"; py "link"; py "links"])
    with (recognised L c).
  destruct (recognised L c) eqn:Hc; cbn [negb andb].
  - exists [], cols. now repeat split.
  - destruct (find_url_column L cols) as [col|].
    + destruct IH as (before & after & -> & Hcol & Hbefore).
      exists (c :: before), after. cbn [forallb]. rewrite Hc, Hbefore.
      now repeat split.
    + exact IH.
Qed.

Lemma find_url_column_at (L : Libs) (before : list str) (col : str) (after : list str) :
  recognised L col = true ->
  forallb (fun c => negb (recognised L c)) before = true ->
  find_url_column L (before ++ col :: after) = Some col.
Proof.
  intros Hcol. induction before as [|c before IH];
    cbn [app find_url_column forallb].
  - intros _.
    change (str_in (lower L col) [py "url"; py "urls"; py "link"; py "links"])
      with (recognised L col).
    now rewrite Hcol.
  - change (str_in (lower L c) [py "url"; py "urls"; py "link"; py "links"])
      with (recognised L c).
    intro H. apply andb_true_iff in H. destruct H as [Hc Hb].
    apply negb_true_iff in Hc. rewrite Hc. now apply IH.
Qed.

Lemma forallb_columns (f : str -> bool) (df : DataFrame) :
  forallb f (columns df) = forallb (fun c => f (fst c)) df.
Proof.
  induction df as [|c df IH]; simpl; [reflexivity|]. now rewrite IH.
Qed.

Section BatchMore.
Variable L : Libs.
Variable net : nat -> Net.

(** X12.  The cells analysed are those of the first recognised column:
    when no column before it is recognised, the flow analyses the cells
    of that column that are not missing, whatever the other columns
    hold. *)
Theorem batch_reads_first_recognised_column (before after : DataFrame)
    (col : str) (cells : list (option pyval)) :
  recognised L col = true ->
  forallb (fun c => negb (recognised L (fst c))) before = true ->
  exists results,
    batch_flow L net (before ++ (col, cells) :: after)
      = Ok (Analysed (dropna cells) results) /\
    len_list results = len_list (dropna cells).
Proof.
  intros Hcol Hbefore.
  assert (Hfind : find_url_column L (columns (before ++ (col, cells) :: after))
                  = Some col).
  { unfold columns. rewrite map_app. simpl.
    apply find_url_column_at; [exact Hcol|].
    fold (columns before). now rewrite forallb_columns. }
  assert (Hcolumn : column (before ++ (col, cells) :: after) col = cells).
  { clear Hfind. induction before as [|[c cs] before IH]; simpl.
    - now rewrite str_eqb_refl.
    - simpl in Hbefore. apply andb_true_iff in Hbefore.
      destruct Hbefore as [Hc Hb]. apply negb_true_iff in Hc.
      destruct (str_eqb c col) eqn:E; [|now apply IH].
      apply str_eqb_eq in E. subst c. rewrite Hcol in Hc. discriminate Hc. }
  destruct (analyze_loop_results L net (dropna cells) 0 [])
    as (results & Hloop & Hlen & _).
  exists results. unfold batch_flow. rewrite Hfind, Hcolumn, Hloop. simpl.
  split; [reflexivity|]. unfold len_list. now rewrite Hlen.
Qed.

(** X13.  The flow reports a missing URL column exactly when no column
    name passes the test; it then analyses nothing. *)
Theorem no_url_column_iff (df : DataFrame) :
  batch_flow L net df = Ok NoUrlColumn <->
  forallb (fun c => negb (recognised L c)) (columns df) = true.
Proof.
  unfold batch_flow.
  pose proof (find_url_column_first_match L (columns df)) as Hfind.
  destruct (find_url_column L (columns df)) as [col|].
  - destruct (analyze_loop_results L net (dropna (column df col)) 0 [])
      as (results & Hloop & _).
    rewrite Hloop. simpl. split; [discriminate|].
    destruct Hfind as (before & after & Hcols & Hcol & _).
    rewrite Hcols, forallb_app. simpl. rewrite Hcol. simpl.
    rewrite andb_false_r. discriminate.
  - split; [intros _; exact Hfind | reflexivity].
Qed.

Lemma analyze_loop_non_strings (urls : list pyval) :
  forallb (fun v => negb (is_str v)) urls = true ->
  forall i acc,
    analyze_loop L net i urls acc = Ok (acc ++ map startswith_failure urls).
Proof.
  induction urls as [|v urls IH]; cbn [forallb analyze_loop map]; intros H i acc.
  - now rewrite app_nil_r.
  - apply andb_true_iff in H. destruct H as [Hv Hrest].
    destruct v as [s|ty rp]; [discriminate Hv|].
    change (get_page_data L (net i) (PyObj ty rp))
      with (Ok (startswith_failure (PyObj ty rp))).
    cbv iota beta. rewrite IH by exact Hrest. now rewrite <- app_assoc.
Qed.

(** X14.  A URL column that holds no strings (a numeric column) is
    analysed without a single request: every record is the failure record
    of its cell, with the cell itself as [url] and the message that the
    object has no attribute [startswith]. *)
Theorem batch_of_non_strings (df : DataFrame) (url_column : str) :
  find_url_column L (columns df) = Some url_column ->
  forallb (fun v => negb (is_str v)) (dropna (column df url_column)) = true ->
  batch_flow L net df =
  Ok (Analysed (dropna (column df url_column))
        (map startswith_failure (dropna (column df url_column)))).
Proof.
  intros Hcol Hcells. unfold batch_flow. rewrite Hcol.
  now rewrite (analyze_loop_non_strings _ Hcells).
Qed.
End BatchMore.

Section Summary.
Variable L : Libs.
Variable net : nat -> Net.

Lemma get_page_data_shape (requests_get : Net) (arg : pyval) (r : AnalysisResult) :
  get_page_data L requests_get arg = Ok r -> record_shape r.
Proof.
  rewrite get_page_data_run. intro H. inversion H as [Hr]. clear H.
  destruct (fst (get_page_data_try L requests_get arg)) as [r'|e] eqn:Hrun.
  - left. now apply try_ok_record in Hrun.
  - right. now exists (url_binding arg), e.
Qed.

Lemma analyze_loop_shape (urls : list pyval) :
  forall i acc results,
    Forall record_shape acc ->
    analyze_loop L net i urls acc = Ok results ->
    Forall record_shape results.
Proof.
  induction urls as [|u urls IH]; cbn [analyze_loop]; intros i acc results Hacc Hloop.
  - inversion Hloop. now subst.
  - destruct (get_page_data L (net i) u) as [r|e] eqn:Hr; [|discriminate Hloop].
    apply (IH (S i) (acc ++ [r]) results); [|exact Hloop].
    apply Forall_app. split; [exact Hacc|].
    constructor; [|constructor]. exact (get_page_data_shape _ _ Hr).
Qed.

(** X15.  What a failed URL does to the summary of a batch: it is never a
    successful request and never a noindex page, and it is always a
    canonical issue and a missing title.  So the failed records and the
    successful requests together are at most all records, likewise the
    failed records and the noindex pages, and both the canonical issues
    and the missing titles are at least the failed records. *)
Theorem failures_in_the_summary (df : DataFrame) (urls : list pyval)
    (results : list AnalysisResult) :
  batch_flow L net df = Ok (Analysed urls results) ->
  success_count results + failed_count results <= len_list results /\
  noindex_count results + failed_count results <= len_list results /\
  failed_count results <= canonical_issues results /\
  failed_count results <= missing_titles results.
Proof.
  intro Hflow.
  assert (Hshape : Forall record_shape results).
  { revert Hflow. unfold batch_flow.
    destruct (find_url_column L (columns df)) as [col|]; [|discriminate].
    destruct (analyze_loop L net 0 (dropna (column df col)) []) as [rs|e] eqn:Hloop;
      [|discriminate].
    intro H. inversion H. subst.
    exact (analyze_loop_shape _ _ (Forall_nil _) Hloop). }
  clear Hflow.
  unfold success_count, noindex_count, canonical_issues, missing_titles,
    failed_count, count_if, len_list.
  induction Hshape as [|r rs Hr _ IH]; [cbn; lia|].
  cbn [filter]. destruct Hr as [Hnone|(u & e & ->)].
  - rewrite Hnone.
    repeat match goal with
           | |- context [List.length (if ?b then _ else _)] => destruct b
           end;
      cbn [List.length]; lia.
  - cbn [status_code noindex_found is_self_referring canonical_url meta_title
         error failure_record].
    change (str_eqb (py "Error") (py "Not found")) with false.
    cbn [negb andb List.length]. lia.
Qed.
End Summary.

(** ** The single-URL flow *)

Section SingleFlow.
Variable L : Libs.
Variable requests_get : Net.

(** X16.  The flow answers with the warning, and with nothing else,
    exactly when the input is empty or made of white space only; nothing
    is fetched then. *)
Theorem blank_input_is_refused (url_input : str) :
  single_url_flow L requests_get url_input
    = Ok [st_warning (py "Please enter a URL to analyze!")] <->
  forallb isspace url_input = true.
Proof.
  rewrite <- strip_nil. unfold single_url_flow.
  destruct (strip url_input) as [|c u]; [split; reflexivity|].
  rewrite get_page_data_run. split; intro H; [inversion H | discriminate H].
Qed.

(** X17.  When the request for a non-blank input raises a
    [RequestException] with a message, the flow shows the spinner and the
    error with that message, and none of the detail lines. *)
Theorem failed_fetch_shows_only_the_error (url_input : str) (c : N) (u : str)
    (m : N) (msg : str) :
  strip url_input = c :: u ->
  requests_get (add_protocol (c :: u)) headers 10 true
    = Raise (RequestException (m :: msg)) ->
  single_url_flow L requests_get url_input =
  Ok [st_spinner (py "Analyzing " ++ url_input ++ py "...");
      st_error (py "Error analyzing URL: " ++ m :: msg)].
Proof.
  intros Hstrip Hget. unfold single_url_flow. rewrite Hstrip.
  autounfold with pyrun; simpl. now rewrite Hget.
Qed.

(** X18.  An exception whose text is empty is not shown as an error: the
    test of line 265 is false for the empty string, so the flow renders
    the detail block of the failure record, with ['Error'] in the red
    status badge, and makes no call of [st.error]. *)
Theorem failure_without_text_is_rendered (url_input : str) (c : N) (u : str) :
  strip url_input = c :: u ->
  requests_get (add_protocol (c :: u)) headers 10 true = Raise (RequestException []) ->
  exists shown,
    single_url_flow L requests_get url_input =
      Ok (st_spinner (py "Analyzing " ++ url_input ++ py "...") :: shown) /\
    shown = render_result
              (failure_record (PyStr (add_protocol (c :: u))) (RequestException [])) /\
    In (st_markdown Col1
          (py "**Status Code:** " ++ span (py "status-error") (py "Error")) true)
       shown /\
    forall text, ~ In (st_error text) shown.
Proof.
  intros Hstrip Hget. eexists. split; [|split; [reflexivity|]].
  - unfold single_url_flow. rewrite Hstrip.
    autounfold with pyrun; simpl. now rewrite Hget.
  - split.
    + right. right. left. reflexivity.
    + intros text H. cbn in H.
      repeat (destruct H as [H|H]; [discriminate H|]). exact H.
Qed.
End SingleFlow.

Lemma canonical_badge_cases (is_self : bool) (canonical : str) :
  negb is_self && negb (str_eqb canonical (py "Not found")) =
  str_eqb (format_canonical_status is_self canonical)
    (span (py "tag-bad") (py "Non self-referring")).
Proof.
  unfold format_canonical_status.
  destruct is_self, (str_eqb canonical (py "Not found")); reflexivity.
Qed.

(** X19.  The detail block names the canonical URL, in a line of its own,
    exactly when the canonical badge above it reads [Non self-referring];
    the test of line 276 and the formatter of lines 175-182 agree. *)
Theorem canonical_line_iff_badge (result : AnalysisResult) :
  In (st_markdown Col1 (py "*Canonical URL: " ++ canonical_url result ++ py "*") false)
     (render_result result) <->
  format_canonical_status (is_self_referring result) (canonical_url result)
    = span (py "tag-bad") (py "Non self-referring").
Proof.
  rewrite <- str_eqb_eq, <- canonical_badge_cases.
  unfold render_result.
  destruct (negb (is_self_referring result) &&
            negb (str_eqb (canonical_url result) (py "Not found"))).
  - split; [reflexivity|]. intros _.
    do 4 right. left. reflexivity.
  - split; [|discriminate]. intro H. exfalso. cbn [app In] in H.
    repeat (destruct H as [H|H];
            [inversion H as [Hbody]; try (unfold py in Hbody; simpl in Hbody);
             discriminate |]).
    exact H.
Qed.

(** ** The further properties on sample pages *)

(** A network that redirects to the page answers the request for it as
    one that serves it. *)
Lemma only_the_normalised_request_matters_witness :
  get_page_data libs_blank_title (serving 200) (PyStr page_url) =
  get_page_data libs_blank_title (redirecting 200 page_url_fetched) (PyStr page_url).
Proof.
  exact (@only_the_normalised_request_matters libs_blank_title (serving 200)
           (redirecting 200 page_url_fetched) page_url eq_refl).
Defined.

(** The record of a host that cannot be reached is the failure record. *)
Lemma record_is_success_or_failure_witness :
  exists result,
    get_page_data (sample_libs [] []) unreachable (PyStr page_url) = Ok result /\
    ((error result = None /\ (exists n, status_code result = SInt n) /\
      url result = url_binding (PyStr page_url)) \/
     (exists e, result = failure_record (url_binding (PyStr page_url)) e /\
                error result = Some (str_of_exn e))).
Proof.
  eexists.
  assert (Hres : get_page_data (sample_libs [] []) unreachable (PyStr page_url)
                 = Ok _) by (vm_compute; reflexivity).
  split; [exact Hres|].
  exact (@record_is_success_or_failure (sample_libs [] []) unreachable
           (PyStr page_url) _ Hres).
Defined.

(** A title between spaces: 35 characters are kept and counted. *)
Lemma texts_are_trimmed_witness :
  exists result,
    get_page_data libs_titled (serving 200) (PyStr page_url) = Ok result /\
    meta_title result = Some (py "Hello World Example Page Title Here") /\
    title_length result = 35.
Proof.
  eexists.
  assert (Hres : get_page_data libs_titled (serving 200) (PyStr page_url)
                 = Ok _) by (vm_compute; reflexivity).
  destruct (@texts_are_trimmed libs_titled (serving 200) (PyStr page_url) _ Hres)
    as (Hlen & _ & _).
  split; [exact Hres|]. split; [reflexivity|]. exact Hlen.
Defined.

(** Directives in capitals are found. *)
Lemma robots_flags_of_success_witness :
  exists result,
    get_page_data libs_robots (serving 200) (PyStr page_url) = Ok result /\
    noindex_found result = true /\
    nofollow_found result = true.
Proof.
  eexists.
  assert (Hres : get_page_data libs_robots (serving 200) (PyStr page_url)
                 = Ok _) by (vm_compute; reflexivity).
  destruct (@robots_flags_of_success libs_robots (serving 200) page_url _
              (Response.mk 200 [] page_url_fetched)
              [meta_named (py "robots") (py "NOINDEX, NOFOLLOW")]
              Hres eq_refl eq_refl eq_refl)
    as (content & Hcontent & Hnoindex & Hnofollow).
  inversion Hcontent as [Hc].
  split; [exact Hres|]. split.
  - apply Hnoindex. exists [], (py ", nofollow"). now rewrite <- Hc.
  - apply Hnofollow. exists (py "noindex, "), []. now rewrite <- Hc.
Defined.

(** The canonical URL with a trailing slash, the final URL without. *)
Lemma self_referring_up_to_slashes_witness :
  exists result,
    get_page_data libs_relative_href (serving 200) (PyStr page_url) = Ok result /\
    is_self_referring result = true.
Proof.
  eexists.
  assert (Hres : get_page_data libs_relative_href (serving 200) (PyStr page_url)
                 = Ok _) by (vm_compute; reflexivity).
  split; [exact Hres|].
  apply (@self_referring_up_to_slashes libs_relative_href (serving 200) page_url _
           (Response.mk 200 [] page_url_fetched)
           [link_canonical (py "/page/")] (AStr (py "/page/"))
           (py "https://example.com/page/")
           Hres eq_refl eq_refl eq_refl eq_refl eq_refl).
  exists page_url_fetched, (py "/"), []. repeat split.
Defined.

(** A title of 35 characters gets the green badge. *)
Lemma cells_show_true_lengths_witness :
  exists result,
    get_page_data libs_titled (serving 200) (PyStr page_url) = Ok result /\
    format_meta_content (meta_title result) (title_length result) (py "title") =
    content_with_badge (py "Hello World Example Page Title Here") (py "tag-good") 35.
Proof.
  eexists.
  assert (Hres : get_page_data libs_titled (serving 200) (PyStr page_url)
                 = Ok _) by (vm_compute; reflexivity).
  destruct (@cells_show_true_lengths libs_titled (serving 200) (PyStr page_url) _ Hres)
    as (Htitle & _).
  split; [exact Hres|].
  exact (Htitle 72%N (List.tl (py "Hello World Example Page Title Here")) eq_refl).
Defined.

(** The [Link] column is read though [id] comes first. *)
Lemma batch_reads_first_recognised_column_witness :
  exists results,
    batch_flow (sample_libs [] []) (fun _ => unreachable) sample_frame
      = Ok (Analysed [PyStr (py "example.com/a"); PyStr (py "https://example.com/b")]
              results) /\
    len_list results = 2.
Proof.
  exact (@batch_reads_first_recognised_column (sample_libs [] []) (fun _ => unreachable)
           [(py "id", [Some (PyObj (py "int") (py "1")); Some (PyObj (py "int") (py "2"));
                       Some (PyObj (py "int") (py "3"))])]
           [] (py "Link")
           [Some (PyStr (py "example.com/a")); None;
            Some (PyStr (py "https://example.com/b"))]
           eq_refl eq_refl).
Defined.

(** Two numbers in the [url] column: two failure records. *)
Lemma batch_of_non_strings_witness :
  batch_flow (sample_libs [] []) (fun _ => serving 200) numeric_frame =
  Ok (Analysed [PyObj (py "int") (py "1"); PyObj (py "int") (py "2")]
        [startswith_failure (PyObj (py "int") (py "1"));
         startswith_failure (PyObj (py "int") (py "2"))]).
Proof.
  exact (@batch_of_non_strings (sample_libs [] []) (fun _ => serving 200)
           numeric_frame (py "url") eq_refl eq_refl).
Defined.

(** A batch of two URLs on a network that is down. *)
Lemma failures_in_the_summary_witness :
  exists results,
    batch_flow (sample_libs [] []) (fun _ => unreachable) sample_frame
      = Ok (Analysed [PyStr (py "example.com/a"); PyStr (py "https://example.com/b")]
              results) /\
    failed_count results <= canonical_issues results /\
    failed_count results <= missing_titles results.
Proof.
  eexists.
  assert (Hflow : batch_flow (sample_libs [] []) (fun _ => unreachable) sample_frame
                  = Ok (Analysed _ _)) by (vm_compute; reflexivity).
  destruct (@failures_in_the_summary (sample_libs [] []) (fun _ => unreachable)
              sample_frame _ _ Hflow) as (_ & _ & Hcanonical & Htitles).
  split; [exact Hflow|]. split; [exact Hcanonical | exact Htitles].
Defined.

(** An input between spaces, on a network that is down. *)
Lemma failed_fetch_shows_only_the_error_witness :
  single_url_flow (sample_libs [] []) unreachable (py " example.com/page ") =
  Ok [st_spinner (py "Analyzing  example.com/page ...");
      st_error (py "Error analyzing URL: Connection refused")].
Proof.
  exact (@failed_fetch_shows_only_the_error (sample_libs [] []) unreachable
           (py " example.com/page ") 101%N (List.tl page_url)
           67%N (List.tl (py "Connection refused")) eq_refl eq_refl).
Defined.

(** The same input, on a network whose failure has no text. *)
Lemma failure_without_text_is_rendered_witness :
  exists shown,
    single_url_flow (sample_libs [] []) failing_silently (py " example.com/page ") =
      Ok (st_spinner (py "Analyzing  example.com/page ...") :: shown) /\
    In (st_markdown Col1
          (py "**Status Code:** " ++ span (py "status-error") (py "Error")) true)
       shown.
Proof.
  destruct (@failure_without_text_is_rendered (sample_libs [] []) failing_silently
              (py " example.com/page ") 101%N (List.tl page_url) eq_refl eq_refl)
    as (shown & Hflow & _ & Hstatus & _).
  exists shown. split; [exact Hflow | exact Hstatus].
Defined.

(** ** The loop of the batch flow, piecewise *)

(** X20.  The loop treats a list of URLs piece by piece: analysing
    [first ++ second] is analysing [first], then [second] from the
    results and the request count reached; nothing is carried from one
    URL to the next but the list of results. *)
Theorem analyze_loop_app (L : Libs) (net : nat -> Net) (first second : list pyval) :
  forall (i : nat) (acc : list AnalysisResult),
    analyze_loop L net i (first ++ second) acc =
    match analyze_loop L net i first acc with
    | Ok results => analyze_loop L net (i + List.length first) second results
    | Raise e => Raise e
    end.
Proof.
  induction first as [|u first IH]; intros i acc; cbn [app analyze_loop List.length].
  - now rewrite Nat.add_0_r.
  - destruct (get_page_data L (net i) u) as [r|e]; [|reflexivity].
    rewrite IH. now rewrite Nat.add_succ_r.
Qed.
